(** * EditMaintenanceForm: a shallow embedding of the edit form component

    Source: src/components/EditMaintenanceForm.tsx

    The component keeps three pieces of React state ([isSubmitting],
    [formError], [formData]), initialises [formData] from the record it
    receives, replaces one field per change event, and on submit sends
    the string-coerced fields to the update action and reacts to its
    outcome.  The embedding follows the source function by function;
    the JavaScript built-ins the source calls ([Number.prototype.toString],
    the [Date] constructor, [Date.prototype.toISOString], [String.prototype.split])
    are written out after ECMA-262. *)

From Stdlib Require Import ZArith Lia List Bool String Ascii.
From Stdlib Require Import DecimalString DecimalPos DecimalN.
Import ListNotations.

Local Open Scope string_scope.
Local Open Scope Z_scope.

(** ** JavaScript strings and truthiness *)

Module JS.

(** A string is truthy unless it is empty. *)
Definition truthy_string (s : string) : bool :=
  match s with
  | EmptyString => false
  | String _ _ => true
  end.

(** [a || b] where [a] is a string, or null/undefined ([None]). *)
Definition or_string (a : option string) (b : string) : string :=
  match a with
  | Some s => if truthy_string s then s else b
  | None => b
  end.

(** [n] copies of the character [c]. *)
Fixpoint repeat_char (c : ascii) (n : nat) : string :=
  match n with
  | O => EmptyString
  | S n' => String c (repeat_char c n')
  end.

(** *** Numbers

    The component never computes with a Number; it only converts it to a
    string.  A Number is therefore kept in the form from which
    Number::toString (ECMA-262 6.1.6.1.20) prints it: a finite non-zero
    value is [± s × 10^(n - k)], where [s] is the integer made of the [k]
    significant decimal digits of the shortest representation. *)

Inductive number : Type :=
| NaN
| Infinity (negative : bool)
| Zero                       (* +0 and -0 print alike *)
| Finite (negative : bool) (s : positive) (n : Z).

(** Decimal digits of a positive integer, most significant first. *)
Definition digits (s : positive) : string :=
  NilEmpty.string_of_uint (Pos.to_uint s).

Definition decimal_of_N (v : N) : string :=
  NilZero.string_of_uint (N.to_uint v).

(** Number::toString for radix 10, steps 6 to 10, on the digits [ds] of
    [s] (so [k] is their number) and the exponent [n]. *)
Definition toString_finite (ds : string) (n : Z) : string :=
  let k := Z.of_nat (String.length ds) in
  if (k <=? n) && (n <=? 21) then
    ds ++ repeat_char "0" (Z.to_nat (n - k))
  else if (0 <? n) && (n <=? 21) then
    substring 0 (Z.to_nat n) ds ++ "."
      ++ substring (Z.to_nat n) (Z.to_nat (k - n)) ds
  else if (-6 <? n) && (n <=? 0) then
    "0." ++ repeat_char "0" (Z.to_nat (- n)) ++ ds
  else
    let e := n - 1 in
    let sign := if e <? 0 then "-" else "+" in
    let expo := decimal_of_N (Z.to_N (Z.abs e)) in
    if k =? 1 then ds ++ "e" ++ sign ++ expo
    else substring 0 1 ds ++ "." ++ substring 1 (Z.to_nat (k - 1)) ds
           ++ "e" ++ sign ++ expo.

Definition Number_toString (x : number) : string :=
  match x with
  | NaN => "NaN"
  | Zero => "0"
  | Infinity false => "Infinity"
  | Infinity true => "-Infinity"
  | Finite false s n => toString_finite (digits s) n
  | Finite true s n => "-" ++ toString_finite (digits s) n
  end.

(** Integers as Numbers, for identifiers: [s] without its trailing zeros
    and [n] the number of digits of the integer. *)
Fixpoint strip_zeros (fuel : nat) (v : Z) : Z :=
  match fuel with
  | O => v
  | S f => if (v mod 10 =? 0) && negb (v =? 0) then strip_zeros f (v / 10) else v
  end.

Definition of_Z (v : Z) : number :=
  match v with
  | Z0 => Zero
  | Zpos p =>
      Finite false (Z.to_pos (strip_zeros (Pos.to_nat p) (Zpos p)))
             (Z.of_nat (String.length (digits p)))
  | Zneg p =>
      Finite true (Z.to_pos (strip_zeros (Pos.to_nat p) (Zpos p)))
             (Z.of_nat (String.length (digits p)))
  end.

(** *** Completions

    An expression ends normally with a value or throws. *)

Inductive exn : Type :=
| RangeError (msg : string).

Inductive completion (A : Type) : Type :=
| Normal (a : A)
| Throw (e : exn).
Arguments Normal {A} a.
Arguments Throw {A} e.

End JS.

(** ** Dates (ECMA-262 21.4.1)

    A time value is a number of milliseconds since 1970-01-01T00:00:00Z;
    the invalid time value NaN is [None] wherever it can occur. *)

Module Date.

Definition msPerDay : Z := 86400000.
Definition msPerHour : Z := 3600000.
Definition msPerMinute : Z := 60000.
Definition msPerSecond : Z := 1000.

Definition Day (t : Z) : Z := t / msPerDay.
Definition TimeWithinDay (t : Z) : Z := t mod msPerDay.

Definition leap_year (y : Z) : bool :=
  (y mod 4 =? 0) && (negb (y mod 100 =? 0) || (y mod 400 =? 0)).

Definition DaysInYear (y : Z) : Z := if leap_year y then 366 else 365.

Definition DayFromYear (y : Z) : Z :=
  365 * (y - 1970) + (y - 1969) / 4 - (y - 1901) / 100 + (y - 1601) / 400.

Definition TimeFromYear (y : Z) : Z := msPerDay * DayFromYear y.

(** The year containing day number [d]: the largest [y] with
    [DayFromYear y <= d] (see [YearFromDay_spec]), found by counting whole
    400-, 100-, 4- and 1-year cycles from 0001-01-01. *)
Definition YearFromDay (d : Z) : Z :=
  let n := d + 719162 in
  let n400 := n / 146097 in
  let r := n mod 146097 in
  let n100 := Z.min (r / 36524) 3 in
  let r2 := r - 36524 * n100 in
  let n4 := r2 / 1461 in
  let r3 := r2 mod 1461 in
  let n1 := Z.min (r3 / 365) 3 in
  1 + 400 * n400 + 100 * n100 + 4 * n4 + n1.

Definition YearFromTime (t : Z) : Z := YearFromDay (Day t).

Definition InLeapYear (t : Z) : Z :=
  if leap_year (YearFromTime t) then 1 else 0.

Definition DayWithinYear (t : Z) : Z :=
  Day t - DayFromYear (YearFromTime t).

Definition MonthFromTime (t : Z) : Z :=
  let d := DayWithinYear t in
  let l := InLeapYear t in
  if d <? 31 then 0
  else if d <? 59 + l then 1
  else if d <? 90 + l then 2
  else if d <? 120 + l then 3
  else if d <? 151 + l then 4
  else if d <? 181 + l then 5
  else if d <? 212 + l then 6
  else if d <? 243 + l then 7
  else if d <? 273 + l then 8
  else if d <? 304 + l then 9
  else if d <? 334 + l then 10
  else 11.

Definition DateFromTime (t : Z) : Z :=
  let d := DayWithinYear t in
  let l := InLeapYear t in
  match MonthFromTime t with
  | 0 => d + 1
  | 1 => d - 30
  | 2 => d - 58 - l
  | 3 => d - 89 - l
  | 4 => d - 119 - l
  | 5 => d - 150 - l
  | 6 => d - 180 - l
  | 7 => d - 211 - l
  | 8 => d - 242 - l
  | 9 => d - 272 - l
  | 10 => d - 303 - l
  | _ => d - 333 - l
  end.

Definition HourFromTime (t : Z) : Z := (t / msPerHour) mod 24.
Definition MinFromTime (t : Z) : Z := (t / msPerMinute) mod 60.
Definition SecFromTime (t : Z) : Z := (t / msPerSecond) mod 60.
Definition msFromTime (t : Z) : Z := t mod msPerSecond.

Definition MakeTime (hour min sec ms : Z) : Z :=
  hour * msPerHour + min * msPerMinute + sec * msPerSecond + ms.

(** Days in the year before the first of month [mn] (0 = January). *)
Definition days_before_month (leap : bool) (mn : Z) : Z :=
  let l := if leap then 1 else 0 in
  match mn with
  | 0 => 0
  | 1 => 31
  | 2 => 59 + l
  | 3 => 90 + l
  | 4 => 120 + l
  | 5 => 151 + l
  | 6 => 181 + l
  | 7 => 212 + l
  | 8 => 243 + l
  | 9 => 273 + l
  | 10 => 304 + l
  | _ => 334 + l
  end.

Definition MakeDay (year month date : Z) : Z :=
  let ym := year + month / 12 in
  let mn := month mod 12 in
  DayFromYear ym + days_before_month (leap_year ym) mn + date - 1.

Definition MakeDate (day time : Z) : Z := day * msPerDay + time.

Definition TimeClip (time : Z) : option Z :=
  if Z.abs time <=? 8640000000000000 then Some time else None.

Definition days_in_month (y m : Z) : Z :=
  match m with
  | 2 => if leap_year y then 29 else 28
  | 4 | 6 | 9 | 11 => 30
  | _ => 31
  end.

(** *** Date strings *)

Definition digit_val (c : ascii) : option Z :=
  let v := Z.of_N (N_of_ascii c) in
  if (48 <=? v) && (v <=? 57) then Some (v - 48) else None.

Definition num2 (a b : ascii) : option Z :=
  match digit_val a, digit_val b with
  | Some x, Some y => Some (10 * x + y)
  | _, _ => None
  end.

Definition num3 (a b c : ascii) : option Z :=
  match digit_val a, num2 b c with
  | Some x, Some y => Some (100 * x + y)
  | _, _ => None
  end.

Definition num4 (a b c d : ascii) : option Z :=
  match num2 a b, num2 c d with
  | Some x, Some y => Some (100 * x + y)
  | _, _ => None
  end.

(** ToZeroPaddedDecimalString (ECMA-262 7.1.6.x): the decimal digits of
    [n], padded on the left with zeros to [minLength] characters. *)
Definition ToZeroPaddedDecimalString (n : Z) (minLength : nat) : string :=
  let S := JS.decimal_of_N (Z.to_N n) in
  JS.repeat_char "0" (minLength - String.length S) ++ S.

(** What the Date Time String Format parser makes of a string: a time
    value or NaN when the string has the format, or nothing when the
    string is left to the host's own parser. *)
Inductive parsed : Type :=
| Recognised (tv : option Z)
| Unrecognised.

(** The leading [YYYY-MM-DD] of a string, and what follows it. *)
Definition parse_date (s : string) : option (Z * Z * Z * string) :=
  match s with
  | String y1 (String y2 (String y3 (String y4 (String p
      (String m1 (String m2 (String q (String d1 (String d2 rest))))))))) =>
      if (p =? "-")%char && (q =? "-")%char then
        match num4 y1 y2 y3 y4, num2 m1 m2, num2 d1 d2 with
        | Some y, Some m, Some d => Some (y, m, d, rest)
        | _, _, _ => None
        end
      else None
  | _ => None
  end.

(** A time of day [THH:mm:ss.sssZ], the whole of the string. *)
Definition parse_utc_time (s : string) : option (Z * Z * Z * Z) :=
  match s with
  | String t (String h1 (String h2 (String c1 (String m1 (String m2
      (String c2 (String s1 (String s2 (String dot (String f1 (String f2
      (String f3 (String z EmptyString))))))))))))) =>
      if (t =? "T")%char && (c1 =? ":")%char && (c2 =? ":")%char
         && (dot =? ".")%char && (z =? "Z")%char then
        match num2 h1 h2, num2 m1 m2, num2 s1 s2, num3 f1 f2 f3 with
        | Some h, Some m, Some sec, Some ms => Some (h, m, sec, ms)
        | _, _, _, _ => None
        end
      else None
  | _ => None
  end.

(** The calendar day [y-m-d] at [time] milliseconds into the day.  A
    month outside 01..12 or a day outside 01..31 is an illegal element
    value and gives NaN; a day of the month that the month does not have
    (02-30) is read differently by different engines and is left to the
    host. *)
Definition date_value (y m d time : Z) : parsed :=
  if (m <? 1) || (12 <? m) || (d <? 1) || (31 <? d) then Recognised None
  else if days_in_month y m <? d then Unrecognised
  else Recognised (TimeClip (MakeDate (MakeDay y (m - 1) d) time)).

(** The two forms of the Date Time String Format interpreted here: the
    date-only form [YYYY-MM-DD] (UTC midnight) and the full UTC form
    [YYYY-MM-DDTHH:mm:ss.sssZ] that [toISOString] produces.  Hour 24 and
    every other form (local times, offsets, expanded years, legacy
    formats) are left to the host. *)
Definition iso_parse (s : string) : parsed :=
  match parse_date s with
  | Some (y, m, d, EmptyString) => date_value y m d 0
  | Some (y, m, d, rest) =>
      match parse_utc_time rest with
      | Some (h, mi, sec, ms) =>
          if (24 <? h) || (59 <? mi) || (59 <? sec) then Recognised None
          else if h =? 24 then Unrecognised
          else date_value y m d (MakeTime h mi sec ms)
      | None => Unrecognised
      end
  | None => Unrecognised
  end.

(** Date.prototype.toISOString (ECMA-262 21.4.4.36). *)
Definition toISOString_valid (tv : Z) : string :=
  let y := YearFromTime tv in
  let year :=
    if (0 <=? y) && (y <=? 9999) then ToZeroPaddedDecimalString y 4
    else (if 0 <? y then "+" else "-")
         ++ ToZeroPaddedDecimalString (Z.abs y) 6 in
  year ++ "-" ++ ToZeroPaddedDecimalString (MonthFromTime tv + 1) 2
       ++ "-" ++ ToZeroPaddedDecimalString (DateFromTime tv) 2
       ++ "T" ++ ToZeroPaddedDecimalString (HourFromTime tv) 2
       ++ ":" ++ ToZeroPaddedDecimalString (MinFromTime tv) 2
       ++ ":" ++ ToZeroPaddedDecimalString (SecFromTime tv) 2
       ++ "." ++ ToZeroPaddedDecimalString (msFromTime tv) 3
       ++ "Z".

Definition toISOString (tv : option Z) : JS.completion string :=
  match tv with
  | Some t => JS.Normal (toISOString_valid t)
  | None => JS.Throw (JS.RangeError "Invalid time value")
  end.

Section Host.

(** The host's parser for strings outside the forms [iso_parse] reads. *)
Variable host_parse : string -> option Z.

(** Date.parse. *)
Definition parse (s : string) : option Z :=
  match iso_parse s with
  | Recognised tv => tv
  | Unrecognised => host_parse s
  end.

(** [new Date(s)] for a string [s]: the time value of the new object. *)
Definition new_Date (s : string) : option Z :=
  match parse s with
  | Some tv => TimeClip tv
  | None => None
  end.

End Host.

End Date.

Module Str.

(** [s.split(sep)] for a separator of one character. *)
Fixpoint split (sep : ascii) (s : string) : list string :=
  match s with
  | EmptyString => [EmptyString]
  | String c s' =>
      if (c =? sep)%char then EmptyString :: split sep s'
      else match split sep s' with
           | h :: t => String c h :: t
           | [] => [String c EmptyString]
           end
  end.

End Str.

(** ** Values and objects *)

(** The values a form field can hold. *)
Inductive value : Type :=
| VUndefined
| VNull
| VNumber (n : JS.number)
| VString (s : string).

(** [v?.toString()]: undefined ([None]) for null and undefined. *)
Definition optional_toString (v : value) : option string :=
  match v with
  | VUndefined | VNull => None
  | VNumber n => Some (JS.Number_toString n)
  | VString s => Some s
  end.

(** [l[i]] on an array of strings. *)
Definition index (l : list string) (i : nat) : value :=
  match nth_error l i with
  | Some s => VString s
  | None => VUndefined
  end.

(** A plain object: its own properties in enumeration order.  JavaScript
    enumerates the properties whose names are array indices first, in
    ascending order, and the others in the order of their creation; no
    property name of this component is an array index, and [set] is
    assignment for a name that the object has or that is no array index
    ([is_array_index]).  [get] reads own properties. *)
Module Obj.

Definition t : Type := list (string * value).

Fixpoint get (o : t) (k : string) : value :=
  match o with
  | [] => VUndefined
  | (k', v) :: o' => if (k' =? k)%string then v else get o' k
  end.

(** Assign property [k]: an existing property keeps its place, a new one
    goes last. *)
Fixpoint set (o : t) (k : string) (v : value) : t :=
  match o with
  | [] => [(k, v)]
  | (k', v') :: o' =>
      if (k' =? k)%string then (k', v) :: o' else (k', v') :: set o' k v
  end.

Definition keys (o : t) : list string := map fst o.

(** [Object.entries(o)]. *)
Definition entries (o : t) : list (string * value) := o.

(** The number a string of decimal digits writes, if it is one. *)
Fixpoint numeral_value (acc : Z) (s : string) : option Z :=
  match s with
  | EmptyString => Some acc
  | String c s' =>
      match Date.digit_val c with
      | Some d => numeral_value (10 * acc + d) s'
      | None => None
      end
  end.

(** An array index (ECMA-262 6.1.7): the canonical decimal numeral, without
    leading zeros, of an integer from 0 to 2^32 - 2. *)
Definition is_array_index (k : string) : bool :=
  match k with
  | EmptyString => false
  | String c rest =>
      match numeral_value 0 k with
      | Some v =>
          (negb (c =? "0")%char
           || match rest with
              | EmptyString => true
              | String _ _ => false
              end)
          && (v <? 4294967295)
      | None => false
      end
  end.

End Obj.

(** ** The props *)

Module Types.

(** Modelled from the spec: the declaration of [MaintenanceRecord]
    ([@/types/maintenance]) is not among the sources.  The fields are those
    the component reads; identifier and vehicle reference are Numbers, the
    dates arrive as strings, the cost is a Number, and [None] stands for a
    field that is null or undefined. *)
Record MaintenanceRecord : Type := {
  id : JS.number;
  vehicle_id : JS.number;
  service_type : option string;
  description : option string;
  date_performed : option string;
  next_due_date : option string;
  cost : option JS.number;
  status : option string;
  service_provider : option string;
  notes : option string
}.

End Types.

(** The [Vehicle] interface of the source (lines 9 to 15). *)
Module Vehicle.

Record t : Type := {
  id : JS.number;
  make : string;
  model : string;
  year : JS.number;
  license_plate : string
}.

End Vehicle.

Import Types.

(** ** The component *)

Definition FormState : Type := Obj.t.

(** The property names of [formData], in the order of the initialiser. *)
Definition form_keys : list string :=
  ["id"; "vehicle_id"; "service_type"; "description"; "date_performed";
   "next_due_date"; "cost"; "status"; "service_provider"; "notes"].

(** The [name] attributes of the controls that fire [handleChange]. *)
Definition input_names : list string :=
  ["vehicle_id"; "service_type"; "description"; "date_performed";
   "next_due_date"; "cost"; "status"; "service_provider"; "notes"].

Definition serviceTypes : list string :=
  ["Oil Change"; "Tire Rotation"; "Brake Service"; "Air Filter Replacement";
   "Battery Replacement"; "Transmission Service"; "Coolant Flush";
   "Wheel Alignment"; "Engine Tune-up"; "Inspection"; "Other"].

Section Initial.

Variable host_parse : string -> option Z.

(** [x ? new Date(x).toISOString().split('T')[0] : ''] *)
Definition display_date (x : option string) : JS.completion value :=
  match x with
  | Some s =>
      if JS.truthy_string s then
        match Date.toISOString (Date.new_Date host_parse s) with
        | JS.Normal iso => JS.Normal (index (Str.split "T" iso) 0)
        | JS.Throw e => JS.Throw e
        end
      else JS.Normal (VString "")
  | None => JS.Normal (VString "")
  end.

(** The initialiser of [useState] for [formData] (lines 28 to 39); the
    properties are evaluated in order and the first exception ends the
    render. *)
Definition initialFormData (maintenanceRecord : MaintenanceRecord)
  : JS.completion FormState :=
  match display_date (date_performed maintenanceRecord) with
  | JS.Throw e => JS.Throw e
  | JS.Normal performed =>
  match display_date (next_due_date maintenanceRecord) with
  | JS.Throw e => JS.Throw e
  | JS.Normal due =>
      JS.Normal
        [ ("id", VNumber (id maintenanceRecord));
          ("vehicle_id", VNumber (vehicle_id maintenanceRecord));
          ("service_type", VString (JS.or_string (service_type maintenanceRecord) ""));
          ("description", VString (JS.or_string (description maintenanceRecord) ""));
          ("date_performed", performed);
          ("next_due_date", due);
          ("cost", VString (JS.or_string
                      (option_map JS.Number_toString (cost maintenanceRecord)) "0"));
          ("status", VString (JS.or_string (status maintenanceRecord) "scheduled"));
          ("service_provider", VString (JS.or_string (service_provider maintenanceRecord) ""));
          ("notes", VString (JS.or_string (notes maintenanceRecord) "")) ]
  end
  end.

End Initial.

(** The three [useState] cells. *)
Record State : Type := {
  isSubmitting : bool;
  formError : option string;
  formData : FormState
}.

(** What the handlers do to the world outside the component. *)
Inductive effect : Type :=
| PreventDefault
| UpdateMaintenanceRecord (formDataObj : list (string * string))
| RouterPush (href : string)
| RouterRefresh
| ConsoleError (label : string).

(** Handlers run in a state-and-output monad over [State] and the list
    of effects they perform. *)
Definition M (A : Type) : Type := State -> A * State * list effect.

Definition ret {A} (a : A) : M A := fun st => (a, st, []).

Definition bind {A B} (m : M A) (k : A -> M B) : M B :=
  fun st =>
    let '(a, st1, out1) := m st in
    let '(b, st2, out2) := k a st1 in
    (b, st2, (out1 ++ out2)%list).

Notation "x <- m ;; k" := (bind m (fun x => k))
  (at level 61, m at next level, right associativity).
Notation "m ;; k" := (bind m (fun _ => k))
  (at level 61, right associativity).

Definition perform (e : effect) : M unit := fun st => (tt, st, [e]).

Definition setIsSubmitting (b : bool) : M unit :=
  fun st => (tt, {| isSubmitting := b; formError := formError st;
                    formData := formData st |}, []).

Definition setFormError (e : option string) : M unit :=
  fun st => (tt, {| isSubmitting := isSubmitting st; formError := e;
                    formData := formData st |}, []).

Definition setFormData (f : FormState -> FormState) : M unit :=
  fun st => (tt, {| isSubmitting := isSubmitting st; formError := formError st;
                    formData := f (formData st) |}, []).

(** The [formData] of the render whose handler is running. *)
Definition read_formData : M FormState := fun st => (formData st, st, []).

Definition exec {A} (m : M A) (st : State) : State := snd (fst (m st)).
Definition output {A} (m : M A) (st : State) : list effect := snd (m st).

(** Lines 57 to 63. *)
Definition handleChange (name value : string) : M unit :=
  setFormData (fun prev => Obj.set prev name (VString value)).

(** [FormData.prototype.append]. *)
Definition append (formDataObj : list (string * string)) (key value : string)
  : list (string * string) :=
  (formDataObj ++ [(key, value)])%list.

(** Lines 73 to 78: the payload built from the entries of [formData]. *)
Definition build_formDataObj (fd : FormState) : list (string * string) :=
  fold_left
    (fun formDataObj '(key, value) =>
       append formDataObj key (JS.or_string (optional_toString value) ""))
    (Obj.entries fd) [].

(** Modelled from the spec: the update action
    ([@/app/dashboard/maintenance/actions]) is not among the sources.  Its
    result has a boolean success flag and, on failure, an optional
    message; the component reads [result.success] and [result.message]. *)
Record Result : Type := {
  success : bool;
  message : option string
}.

(** How the awaited call ends. *)
Inductive outcome : Type :=
| Resolved (result : Result)
| Rejected.

(** [handleSubmit] up to the [await] (lines 66 to 81). *)
Definition handleSubmit_call : M unit :=
  perform PreventDefault ;;
  setIsSubmitting true ;;
  setFormError None ;;
  fd <- read_formData ;;
  perform (UpdateMaintenanceRecord (build_formDataObj fd)).

(** [handleSubmit] after the [await] (lines 83 to 95). *)
Definition handleSubmit_resume (o : outcome) : M unit :=
  match o with
  | Resolved result =>
      if success result then
        perform (RouterPush "/dashboard/maintenance") ;;
        perform RouterRefresh
      else
        setFormError
          (Some (JS.or_string (message result)
                   "An error occurred while updating the maintenance record")) ;;
        setIsSubmitting false
  | Rejected =>
      perform (ConsoleError "Error submitting form:") ;;
      setFormError (Some "An unexpected error occurred. Please try again.") ;;
      setIsSubmitting false
  end.

(** A whole submission that ends with [o]. *)
Definition handleSubmit (o : outcome) : M unit :=
  handleSubmit_call ;; handleSubmit_resume o.

(** *** What is rendered *)

(** [{formError && (...{formError}...)}]: the text of the banner when one
    is rendered. *)
Definition banner (st : State) : option string :=
  match formError st with
  | Some e => if JS.truthy_string e then Some e else None
  | None => None
  end.

(** [disabled={isSubmitting}] *)
Definition submit_disabled (st : State) : bool := isSubmitting st.

Definition submit_label (st : State) : string :=
  if isSubmitting st then "Updating..." else "Update Maintenance Record".

(** *** The mounted component and its events *)

Record Mounted : Type := {
  state : State;
  inFlight : nat;          (* calls of the update action not yet settled *)
  trace : list effect
}.

Inductive event : Type :=
| SubmitClick                       (* the user activates the submit button *)
| Change (name value : string)      (* an input fires onChange *)
| Settle (o : outcome).             (* an awaited call ends *)

Definition run (m : M unit) (c : Mounted) (calls : nat) : Mounted :=
  {| state := exec m (state c);
     inFlight := calls;
     trace := (trace c ++ output m (state c))%list |}.

(** One event.  A disabled submit button submits nothing; a call can
    only settle when one is outstanding ([None] otherwise). *)
Definition dispatch (c : Mounted) (e : event) : option Mounted :=
  match e with
  | SubmitClick =>
      if submit_disabled (state c) then Some c
      else Some (run handleSubmit_call c (S (inFlight c)))
  | Change name value => Some (run (handleChange name value) c (inFlight c))
  | Settle o =>
      match inFlight c with
      | O => None
      | S n => Some (run (handleSubmit_resume o) c n)
      end
  end.

Fixpoint dispatch_all (c : Mounted) (es : list event) : option Mounted :=
  match es with
  | [] => Some c
  | e :: es' =>
      match dispatch c e with
      | Some c' => dispatch_all c' es'
      | None => None
      end
  end.

(** The first render: [useState(false)], [useState(null)] and the
    initialiser of [formData]. *)
Definition mount (host_parse : string -> option Z) (r : MaintenanceRecord)
  : JS.completion Mounted :=
  match initialFormData host_parse r with
  | JS.Normal fd =>
      JS.Normal {| state := {| isSubmitting := false; formError := None;
                                 formData := fd |};
                     inFlight := 0; trace := [] |}
  | JS.Throw e => JS.Throw e
  end.

(** The record of the scenario. *)
Definition oil_change : MaintenanceRecord :=
  {| id := JS.of_Z 7; vehicle_id := JS.of_Z 3;
     service_type := Some "Oil Change"; description := None;
     date_performed := None; next_due_date := Some "2024-05-01";
     cost := Some (JS.Finite false 455 2); status := Some "completed";
     service_provider := None; notes := None |}.

(** A host parser that recognises nothing beyond [Date.iso_parse]. *)
Definition no_host_parse : string -> option Z := fun _ => None.

(** ** Vocabulary of the properties *)

(** The string form of a field as the update action is to receive it:
    the string itself, the printed Number, and the empty string for null
    and undefined. *)
Definition string_coercion (v : value) : string :=
  match v with
  | VUndefined | VNull => ""
  | VNumber n => JS.Number_toString n
  | VString s => s
  end.

(** [FormData.prototype.get]: the first value appended under [k]. *)
Fixpoint payload_get (p : list (string * string)) (k : string) : option string :=
  match p with
  | [] => None
  | (k', v) :: p' => if (k' =? k)%string then Some v else payload_get p' k
  end.

(** The form state of the scenario, and the state of a component that
    has just mounted with it. *)
Definition oil_change_form : FormState :=
  [ ("id", VNumber (JS.of_Z 7)); ("vehicle_id", VNumber (JS.of_Z 3));
    ("service_type", VString "Oil Change"); ("description", VString "");
    ("date_performed", VString ""); ("next_due_date", VString "2024-05-01");
    ("cost", VString "45.5"); ("status", VString "completed");
    ("service_provider", VString ""); ("notes", VString "") ].

Definition fresh (fd : FormState) : State :=
  {| isSubmitting := false; formError := None; formData := fd |}.

Definition fresh_mount (fd : FormState) : Mounted :=
  {| state := fresh fd; inFlight := 0; trace := [] |}.

(** An explicit failure result with the given message, if any. *)
Definition failure (m : option string) : outcome :=
  Resolved {| success := false; message := m |}.

(** A submission failed: the result says so, or the call threw. *)
Definition failed (o : outcome) : bool :=
  match o with
  | Resolved result => negb (success result)
  | Rejected => true
  end.

(** The routes navigated to, and the number of refreshes requested, in a
    list of effects. *)
Fixpoint pushes (out : list effect) : list string :=
  match out with
  | [] => []
  | RouterPush href :: out' => href :: pushes out'
  | _ :: out' => pushes out'
  end.

Fixpoint refreshes (out : list effect) : nat :=
  match out with
  | [] => O
  | RouterRefresh :: out' => S (refreshes out')
  | _ :: out' => refreshes out'
  end.

(** The calls of the update action in a list of effects, and the calls
    that settle in a list of events. *)
Fixpoint calls (out : list effect) : nat :=
  match out with
  | [] => O
  | UpdateMaintenanceRecord _ :: out' => S (calls out')
  | _ :: out' => calls out'
  end.

Fixpoint settled (es : list event) : nat :=
  match es with
  | [] => O
  | Settle _ :: es' => S (settled es')
  | _ :: es' => settled es'
  end.

(** Every change event among [es] comes from one of the controls. *)
Fixpoint from_inputs (es : list event) : Prop :=
  match es with
  | [] => True
  | Change name _ :: es' => In name input_names /\ from_inputs es'
  | _ :: es' => from_inputs es'
  end.

Definition is_string (v : value) : bool :=
  match v with
  | VString _ => true
  | _ => false
  end.

(** Fixed-width decimal digits, and the calendar day of a time value
    written [YYYY-MM-DD]. *)
Definition digit_char (d : Z) : ascii := ascii_of_N (Z.to_N (48 + d)).

Definition two_digits (n : Z) : string :=
  String (digit_char (n / 10)) (String (digit_char (n mod 10)) EmptyString).

Definition four_digits (n : Z) : string :=
  two_digits (n / 100) ++ two_digits (n mod 100).

Definition calendar_date (tv : Z) : string :=
  four_digits (Date.YearFromTime tv) ++ "-" ++ two_digits (Date.MonthFromTime tv + 1)
    ++ "-" ++ two_digits (Date.DateFromTime tv).

(** The shape [YYYY-MM-DD]: four digits, two digits and two digits
    separated by hyphens. *)
Definition is_digit (c : ascii) : bool :=
  match Date.digit_val c with
  | Some _ => true
  | None => false
  end.

Definition is_YYYY_MM_DD (s : string) : bool :=
  match s with
  | String y1 (String y2 (String y3 (String y4 (String p
      (String m1 (String m2 (String q (String d1 (String d2 EmptyString))))))))) =>
      is_digit y1 && is_digit y2 && is_digit y3 && is_digit y4
      && (p =? "-")%char && is_digit m1 && is_digit m2
      && (q =? "-")%char && is_digit d1 && is_digit d2
  | _ => false
  end.

(** [c] occurs in [s]. *)
Fixpoint contains (c : ascii) (s : string) : bool :=
  match s with
  | EmptyString => false
  | String c' s' => (c' =? c)%char || contains c s'
  end.

(** [P] holds of 0, 1, ..., [n - 1]. *)
Fixpoint all_below (n : nat) (P : Z -> bool) : bool :=
  match n with
  | O => true
  | S k => P (Z.of_nat k) && all_below k P
  end.

(** A string of the shape [YYYY-MM-DD] that names a day of the calendar. *)
Definition real_calendar_date (s : string) : bool :=
  is_YYYY_MM_DD s &&
  match Date.parse_date s with
  | Some (y, m, d, _) =>
      (1 <=? m) && (m <=? 12) && (1 <=? d) && (d <=? Date.days_in_month y m)
  | None => false
  end.

(** At most one call is outstanding, and while one is, the component is
    submitting. *)
Definition one_in_flight (c : Mounted) : Prop :=
  (inFlight c <= 1)%nat /\ (inFlight c = 1%nat -> isSubmitting (state c) = true).

(** The component has been left submitting by a call that has settled. *)
Definition stuck_submitting (c : Mounted) : Prop :=
  inFlight c = 0%nat /\ isSubmitting (state c) = true.

(** A text field as displayed: the text, or [d] when the record has none. *)
Definition default (d : string) (x : option string) : string :=
  match x with
  | Some s => s
  | None => d
  end.

(** A date of the record can be displayed: it is absent or empty, or the
    host reads it as a valid time value of a year 0000 to 9999. *)
Definition valid_date (host_parse : string -> option Z) (x : option string) : bool :=
  match x with
  | Some s =>
      if JS.truthy_string s then
        match Date.new_Date host_parse s with
        | Some tv => (0 <=? Date.YearFromTime tv) && (Date.YearFromTime tv <=? 9999)
        | None => false
        end
      else true
  | None => true
  end.

(** A date of the record as displayed: its UTC calendar day written
    [YYYY-MM-DD], or the empty string when the record has none. *)
Definition date_display (host_parse : string -> option Z) (x : option string) : string :=
  match x with
  | Some s =>
      if JS.truthy_string s then
        match Date.new_Date host_parse s with
        | Some tv => calendar_date tv
        | None => ""
        end
      else ""
  | None => ""
  end.

(** The record of the scenario with the zero date as date performed. *)
Definition zero_date : MaintenanceRecord :=
  {| id := JS.of_Z 7; vehicle_id := JS.of_Z 3;
     service_type := Some "Oil Change"; description := None;
     date_performed := Some "0000-00-00"; next_due_date := Some "2024-05-01";
     cost := Some (JS.Finite false 455 2); status := Some "completed";
     service_provider := None; notes := None |}.

(** The change events among [es], applied to a form state in order. *)
Fixpoint apply_changes (es : list event) (fd : FormState) : FormState :=
  match es with
  | [] => fd
  | Change name value :: es' => apply_changes es' (Obj.set fd name (VString value))
  | _ :: es' => apply_changes es' fd
  end.

(** The calls that settle with a success result, the calls that throw,
    and the diagnostics written to the console. *)
Fixpoint successes (es : list event) : nat :=
  match es with
  | [] => O
  | Settle (Resolved result) :: es' =>
      if success result then S (successes es') else successes es'
  | _ :: es' => successes es'
  end.

Fixpoint rejections (es : list event) : nat :=
  match es with
  | [] => O
  | Settle Rejected :: es' => S (rejections es')
  | _ :: es' => rejections es'
  end.

Fixpoint console_errors (out : list effect) : nat :=
  match out with
  | [] => O
  | ConsoleError _ :: out' => S (console_errors out')
  | _ :: out' => console_errors out'
  end.

(** Every payload sent in [out] carries the identifier [n]. *)
Definition sends_identifier (n : JS.number) (out : list effect) : Prop :=
  forall p, In (UpdateMaintenanceRecord p) out ->
            payload_get p "id" = Some (JS.Number_toString n).

(** An error is recorded only while the component is not submitting, and
    it is never the empty string. *)
Definition error_only_when_idle (st : State) : Prop :=
  formError st = None \/
  (isSubmitting st = false /\ exists e, formError st = Some e /\ JS.truthy_string e = true).

(** Every payload sent in [out] has the ten keys, in order. *)
Definition sends_form_keys (out : list effect) : Prop :=
  forall p, In (UpdateMaintenanceRecord p) out -> map fst p = form_keys.

(** A date of the record is present and the Date constructor reads it as
    an invalid date. *)
Definition date_throws (host_parse : string -> option Z) (x : option string) : bool :=
  match x with
  | Some s =>
      JS.truthy_string s &&
      match Date.new_Date host_parse s with
      | Some _ => false
      | None => true
      end
  | None => false
  end.

(** The decimal numeral of six digits of a number below 1000000. *)
Definition digit_uint (a : Z) (d : Decimal.uint) : Decimal.uint :=
  match a with
  | 0 => Decimal.D0 d | 1 => Decimal.D1 d | 2 => Decimal.D2 d
  | 3 => Decimal.D3 d | 4 => Decimal.D4 d | 5 => Decimal.D5 d
  | 6 => Decimal.D6 d | 7 => Decimal.D7 d | 8 => Decimal.D8 d
  | _ => Decimal.D9 d
  end.

Definition six_uint (n : Z) : Decimal.uint :=
  digit_uint (n / 10000 / 10) (digit_uint (n / 10000 mod 10)
    (digit_uint (n mod 10000 / 100 / 10) (digit_uint (n mod 10000 / 100 mod 10)
      (digit_uint (n mod 10000 mod 100 / 10) (digit_uint (n mod 10000 mod 100 mod 10)
        Decimal.Nil))))).

(** The year of an ISO calendar date: four digits for the years 0000 to
    9999, a sign and six digits for the others; and the ISO calendar date
    of the UTC day of a time value. *)
Definition six_digits (n : Z) : string :=
  two_digits (n / 10000) ++ four_digits (n mod 10000).

Definition year_digits (y : Z) : string :=
  if (0 <=? y) && (y <=? 9999) then four_digits y
  else (if 0 <? y then "+" else "-") ++ six_digits (Z.abs y).

Definition iso_calendar_date (tv : Z) : string :=
  year_digits (Date.YearFromTime tv) ++ "-" ++ two_digits (Date.MonthFromTime tv + 1)
    ++ "-" ++ two_digits (Date.DateFromTime tv).

(** The shapes of an ISO calendar date: [YYYY-MM-DD], or a sign and
    [YYYYYY-MM-DD]. *)
Definition is_sign (c : ascii) : bool := (c =? "+")%char || (c =? "-")%char.

Definition is_expanded_date (s : string) : bool :=
  match s with
  | String sg (String y1 (String y2 (String y3 (String y4 (String y5 (String y6
      (String p (String m1 (String m2 (String q (String d1 (String d2
      EmptyString)))))))))))) =>
      is_sign sg
      && is_digit y1 && is_digit y2 && is_digit y3 && is_digit y4
      && is_digit y5 && is_digit y6
      && (p =? "-")%char && is_digit m1 && is_digit m2
      && (q =? "-")%char && is_digit d1 && is_digit d2
  | _ => false
  end.

Definition is_iso_calendar_date (s : string) : bool :=
  is_YYYY_MM_DD s || is_expanded_date s.

(** * Properties *)

(** ** Sample evaluations *)

Example toString_45_5 : JS.Number_toString (JS.Finite false 455 2) = "45.5".
Proof. reflexivity. Qed.

Example toString_7 : JS.Number_toString (JS.of_Z 7) = "7".
Proof. reflexivity. Qed.

Example toString_1200 : JS.Number_toString (JS.of_Z 1200) = "1200".
Proof. reflexivity. Qed.

Example toString_small : JS.Number_toString (JS.Finite false 15 (-6)) = "1.5e-7".
Proof. reflexivity. Qed.

Example toString_fraction : JS.Number_toString (JS.Finite true 5 (-1)) = "-0.05".
Proof. reflexivity. Qed.

Example toString_large : JS.Number_toString (JS.Finite false 1 22) = "1e+21".
Proof. reflexivity. Qed.

Example array_indices :
  map Obj.is_array_index ["0"; "7"; "42"; "4294967294"]
  = [true; true; true; true].
Proof. reflexivity. Qed.

Example no_array_indices :
  map Obj.is_array_index [""; "07"; "4294967295"; "-1"; "1.5"; "cost"; "mileage"]
  = [false; false; false; false; false; false; false].
Proof. reflexivity. Qed.

Example iso_day : Date.toISOString (Date.new_Date no_host_parse "2024-05-01")
  = JS.Normal "2024-05-01T00:00:00.000Z".
Proof. vm_compute. reflexivity. Qed.
Example iso_full : Date.toISOString (Date.new_Date no_host_parse "1999-12-31T23:59:58.123Z")
  = JS.Normal "1999-12-31T23:59:58.123Z".
Proof. vm_compute. reflexivity. Qed.
Example iso_bad : Date.toISOString (Date.new_Date no_host_parse "0000-00-00")
  = JS.Throw (JS.RangeError "Invalid time value").
Proof. vm_compute. reflexivity. Qed.
Example iso_big : Date.toISOString (Some 253402300800000)
  = JS.Normal "+010000-01-01T00:00:00.000Z".
Proof. vm_compute. reflexivity. Qed.
Example iso_neg : Date.toISOString (Some (-62167219200001))
  = JS.Normal "-000001-12-31T23:59:59.999Z".
Proof. vm_compute. reflexivity. Qed.
Example split_ex : Str.split "T" "2024-05-01T00:00:00.000Z" = ["2024-05-01"; "00:00:00.000Z"].
Proof. reflexivity. Qed.

Example init_oil_change :
  initialFormData no_host_parse oil_change = JS.Normal oil_change_form.
Proof. vm_compute. reflexivity. Qed.

(** ** The calendar *)

Section Calendar.
Import Date.

Ltac divmod x k q r :=
  let E := fresh "E" in let B := fresh "B" in
  pose proof (Z.div_mod x k ltac:(lia)) as E;
  pose proof (Z.mod_pos_bound x k ltac:(lia)) as B;
  generalize dependent (x / k); generalize dependent (x mod k);
  intros r B q E.

(** [YearFromDay d] is the year ECMA-262 defines: the one whose days
    include [d]. *)
Lemma YearFromDay_spec d :
  DayFromYear (YearFromDay d) <= d < DayFromYear (YearFromDay d + 1).
Proof.
  unfold DayFromYear, YearFromDay.
  cbv zeta.
  divmod (d + 719162) 146097 q r.
  assert (D : d = 146097 * q + r - 719162) by lia. subst d. clear E.
  divmod r 36524 a' ra.
  remember (Z.min a' 3) as a eqn:Ha.
  assert (A : a = 0 /\ r < 36524 \/ a = 1 /\ 36524 <= r < 73048 \/
              a = 2 /\ 73048 <= r < 109572 \/ a = 3 /\ 109572 <= r)
    by lia.
  clear Ha E B0 a' ra.
  remember (r - 36524 * a) as r2 eqn:Hr2.
  divmod r2 1461 b r3.
  divmod r3 365 c' rc.
  remember (Z.min c' 3) as c eqn:Hc.
  assert (C : c = 0 /\ r3 < 365 \/ c = 1 /\ 365 <= r3 < 730 \/
              c = 2 /\ 730 <= r3 < 1095 \/ c = 3 /\ 1095 <= r3)
    by lia.
  clear Hc E0 B1 c' rc.
  destruct A as [[-> A]|[[-> A]|[[-> A]|[-> A]]]];
  destruct C as [[-> C]|[[-> C]|[[-> C]|[-> C]]]];
  Z.div_mod_to_equations; lia.
Qed.

Lemma DayFromYear_mono a b : a <= b -> DayFromYear a <= DayFromYear b.
Proof.
  unfold DayFromYear. intros H. Z.div_mod_to_equations; lia.
Qed.

Lemma div_succ x k :
  0 < k -> (x + 1) / k = x / k + (if (x + 1) mod k =? 0 then 1 else 0).
Proof.
  intros K.
  pose proof (Z.div_mod x k ltac:(lia)) as E.
  pose proof (Z.mod_pos_bound x k K) as B.
  destruct (Z.eq_dec (x mod k) (k - 1)) as [L | L].
  - rewrite <- (Z.div_unique (x + 1) k (x / k + 1) 0) by lia.
    rewrite <- (Z.mod_unique (x + 1) k (x / k + 1) 0) by lia.
    reflexivity.
  - rewrite <- (Z.div_unique (x + 1) k (x / k) (x mod k + 1)) by lia.
    rewrite <- (Z.mod_unique (x + 1) k (x / k) (x mod k + 1)) by lia.
    destruct (Z.eqb_spec (x mod k + 1) 0); lia.
Qed.

Lemma mod_shift y c k : 0 < k -> (y - c * k) mod k = y mod k.
Proof.
  intros K. replace (y - c * k) with (y + (- c) * k) by lia.
  now rewrite Z.mod_add by lia.
Qed.

Lemma mod_multiple y k c : 0 < k -> 0 < c -> y mod (c * k) = 0 -> y mod k = 0.
Proof.
  intros K C H.
  pose proof (Z.div_mod y (c * k) ltac:(lia)) as E. rewrite H in E.
  replace y with (c * (y / (c * k)) * k) by lia.
  apply Z.mod_mul. lia.
Qed.

Lemma DayFromYear_succ y : DayFromYear (y + 1) = DayFromYear y + DaysInYear y.
Proof.
  unfold DayFromYear, DaysInYear, leap_year.
  replace (y + 1 - 1969) with (y - 1969 + 1) by lia.
  replace (y + 1 - 1901) with (y - 1901 + 1) by lia.
  replace (y + 1 - 1601) with (y - 1601 + 1) by lia.
  rewrite !div_succ by lia.
  replace (y - 1969 + 1) with (y - 492 * 4) by lia.
  replace (y - 1901 + 1) with (y - 19 * 100) by lia.
  replace (y - 1601 + 1) with (y - 4 * 400) by lia.
  rewrite !mod_shift by lia.
  pose proof (mod_multiple y 4 25 ltac:(lia) ltac:(lia)) as H4.
  pose proof (mod_multiple y 100 4 ltac:(lia) ltac:(lia)) as H100.
  change (25 * 4) with 100 in H4. change (4 * 100) with 400 in H100.
  destruct (Z.eqb_spec (y mod 4) 0), (Z.eqb_spec (y mod 100) 0),
    (Z.eqb_spec (y mod 400) 0); cbn [andb orb negb]; lia.
Qed.

Lemma YearFromDay_unique y d :
  DayFromYear y <= d < DayFromYear (y + 1) -> YearFromDay d = y.
Proof.
  intros H. pose proof (YearFromDay_spec d) as S.
  destruct (Z.lt_trichotomy (YearFromDay d) y) as [L | [E | G]]; [ | exact E | ].
  - pose proof (DayFromYear_mono (YearFromDay d + 1) y ltac:(lia)). lia.
  - pose proof (DayFromYear_mono (y + 1) (YearFromDay d) ltac:(lia)). lia.
Qed.

Lemma DayWithinYear_range t :
  0 <= DayWithinYear t < DaysInYear (YearFromTime t).
Proof.
  unfold DayWithinYear, YearFromTime.
  pose proof (YearFromDay_spec (Day t)) as S.
  rewrite DayFromYear_succ in S. lia.
Qed.

Lemma MonthFromTime_range t : 0 <= MonthFromTime t <= 11.
Proof.
  unfold MonthFromTime.
  repeat match goal with |- context [if ?b then _ else _] => destruct b end; lia.
Qed.

Lemma DateFromTime_range t : 1 <= DateFromTime t <= 31.
Proof.
  pose proof (DayWithinYear_range t) as R.
  unfold DateFromTime, MonthFromTime, InLeapYear, DaysInYear in *.
  destruct (leap_year (YearFromTime t));
  repeat match goal with
         | |- context [if ?a <? ?b then _ else _] => destruct (Z.ltb_spec a b)
         end; lia.
Qed.

(** The time value made from a calendar day gives that day back. *)
Lemma calendar_roundtrip y m d :
  1 <= m <= 12 -> 1 <= d <= days_in_month y m ->
  let t := MakeDate (MakeDay y (m - 1) d) 0 in
  YearFromTime t = y /\ MonthFromTime t = m - 1 /\ DateFromTime t = d.
Proof.
  intros Hm Hd t.
  assert (Dt : Day t = DayFromYear y + days_before_month (leap_year y) (m - 1) + d - 1).
  { unfold t, MakeDate, MakeDay, Day.
    rewrite (Z.div_small (m - 1) 12), (Z.mod_small (m - 1) 12) by lia.
    rewrite !Z.add_0_r. apply Z.div_mul. unfold msPerDay. lia. }
  clearbody t.
  remember (m - 1) as mn eqn:Emn.
  assert (C : m = 1 \/ m = 2 \/ m = 3 \/ m = 4 \/ m = 5 \/ m = 6 \/ m = 7 \/ m = 8
              \/ m = 9 \/ m = 10 \/ m = 11 \/ m = 12) by (clear - Hm; lia).
  clear Hm.
  assert (R : 0 <= days_before_month (leap_year y) mn + d - 1 < DaysInYear y).
  { clear Dt. unfold DaysInYear. revert Hd. unfold days_in_month.
    destruct (leap_year y); intros Hd; decompose [or] C; subst m;
      vm_compute in Emn; subst mn;
      cbv [days_before_month] in *; lia. }
  assert (Y : YearFromTime t = y).
  { unfold YearFromTime. rewrite Dt. apply YearFromDay_unique.
    rewrite DayFromYear_succ. lia. }
  split; [ exact Y | ].
  assert (W : DayWithinYear t = days_before_month (leap_year y) mn + d - 1).
  { unfold DayWithinYear. rewrite Y, Dt. lia. }
  unfold DateFromTime, MonthFromTime, InLeapYear. rewrite W, Y.
  clear W Y Dt R t. revert Hd. unfold days_in_month.
  destruct (leap_year y); intros Hd; decompose [or] C; subst m;
    vm_compute in Emn; subst mn;
    cbv [days_before_month] in *;
    repeat match goal with
         | |- context [if ?a <? ?b then _ else _] => destruct (Z.ltb_spec a b); try lia
         end; cbv beta iota; split; lia.
Qed.

End Calendar.

(** ** Date strings *)

Section DateStrings.
Import Date.

Lemma all_below_spec n P :
  all_below n P = true -> forall z, 0 <= z < Z.of_nat n -> P z = true.
Proof.
  induction n as [ | k IH ]; simpl; intros H z Hz; [ lia | ].
  apply andb_true_iff in H as [H1 H2].
  destruct (Z.eq_dec z (Z.of_nat k)) as [-> | N]; [ exact H1 | ].
  apply IH; [ exact H2 | lia ].
Qed.

Lemma padded_two n :
  0 <= n < 100 -> ToZeroPaddedDecimalString n 2 = two_digits n.
Proof.
  intros H. apply String.eqb_eq.
  apply (all_below_spec 100
           (fun z => (ToZeroPaddedDecimalString z 2 =? two_digits z)%string));
    [ vm_compute; reflexivity | lia ].
Qed.

Lemma padded_four n :
  0 <= n < 10000 -> ToZeroPaddedDecimalString n 4 = four_digits n.
Proof.
  intros H. apply String.eqb_eq.
  apply (all_below_spec (Z.to_nat 10000)
           (fun z => (ToZeroPaddedDecimalString z 4 =? four_digits z)%string));
    [ vm_compute; reflexivity | lia ].
Qed.

(** *** Splitting *)
Lemma split_cons sep s : exists h t, Str.split sep s = h :: t.
Proof.
  induction s as [ | c s (h & t & IH) ]; simpl.
  - now exists EmptyString, [].
  - destruct (c =? sep)%char; [ now eexists _, _ | ].
    rewrite IH. now eexists _, _.
Qed.

Lemma split_before sep a b :
  contains sep a = false ->
  Str.split sep (a ++ String sep b) = a :: Str.split sep b.
Proof.
  induction a as [ | c a IH ]; simpl; intros H.
  - now rewrite Ascii.eqb_refl.
  - apply orb_false_iff in H as [H1 H2]. rewrite H1, (IH H2). reflexivity.
Qed.

Lemma split_head_clean sep s h t :
  Str.split sep s = h :: t -> contains sep h = false.
Proof.
  revert h t. induction s as [ | c s IH ]; simpl; intros h t H.
  - now injection H as <- <-.
  - destruct (c =? sep)%char eqn:E.
    + now injection H as <- <-.
    + destruct (Str.split sep s) as [ | h' t' ] eqn:S.
      * injection H as <- <-. simpl. now rewrite E.
      * injection H as <- <-. simpl. rewrite E. simpl. eapply IH. reflexivity.
Qed.

(** *** Digits *)
Lemma digit_char_val c v : digit_val c = Some v -> digit_char v = c /\ 0 <= v <= 9.
Proof.
  destruct c as [[] [] [] [] [] [] [] []]; vm_compute; intros E;
    try discriminate E; injection E as <-; (split; [ reflexivity | ]);
    split; discriminate.
Qed.

Lemma is_digit_char d : 0 <= d <= 9 -> is_digit (digit_char d) = true.
Proof.
  intros H.
  assert (C : d = 0 \/ d = 1 \/ d = 2 \/ d = 3 \/ d = 4 \/ d = 5 \/ d = 6 \/ d = 7
              \/ d = 8 \/ d = 9) by lia.
  decompose [or] C; subst d; reflexivity.
Qed.

Lemma is_digit_not_sep c : is_digit c = true -> (c =? "T")%char = false.
Proof.
  unfold is_digit. destruct (digit_val c) as [v | ] eqn:E; [ intros _ | discriminate ].
  apply digit_char_val in E as [<- R].
  assert (C : v = 0 \/ v = 1 \/ v = 2 \/ v = 3 \/ v = 4 \/ v = 5 \/ v = 6 \/ v = 7
              \/ v = 8 \/ v = 9) by lia.
  decompose [or] C; subst v; reflexivity.
Qed.

Lemma shape_no_time s : is_YYYY_MM_DD s = true -> contains "T" s = false.
Proof.
  do 10 (destruct s as [ | ? s ]; [ discriminate | ]).
  destruct s; [ | discriminate ].
  unfold is_YYYY_MM_DD. rewrite !andb_true_iff.
  intros [[[[[[[[[Y1 Y2] Y3] Y4] P] M1] M2] Q] D1] D2].
  apply Ascii.eqb_eq in P, Q. subst.
  simpl. rewrite !is_digit_not_sep by assumption. reflexivity.
Qed.

Lemma two_digits_shape n :
  0 <= n < 100 ->
  exists a b, two_digits n = String a (String b EmptyString)
              /\ is_digit a = true /\ is_digit b = true.
Proof.
  intros H. exists (digit_char (n / 10)), (digit_char (n mod 10)).
  split; [ reflexivity | ].
  split; apply is_digit_char; Z.div_mod_to_equations; lia.
Qed.

Lemma calendar_date_shape tv :
  0 <= YearFromTime tv <= 9999 -> is_YYYY_MM_DD (calendar_date tv) = true.
Proof.
  intros Y. unfold calendar_date, four_digits.
  pose proof (MonthFromTime_range tv) as M.
  pose proof (DateFromTime_range tv) as D.
  destruct (two_digits_shape (YearFromTime tv / 100)) as (y1 & y2 & -> & ? & ?);
    [ Z.div_mod_to_equations; lia | ].
  destruct (two_digits_shape (YearFromTime tv mod 100)) as (y3 & y4 & -> & ? & ?);
    [ Z.div_mod_to_equations; lia | ].
  destruct (two_digits_shape (MonthFromTime tv + 1)) as (m1 & m2 & -> & ? & ?);
    [ lia | ].
  destruct (two_digits_shape (DateFromTime tv)) as (d1 & d2 & -> & ? & ?);
    [ lia | ].
  simpl. repeat (apply andb_true_iff; split); auto.
Qed.

Lemma append_assoc (a b c : string) : (a ++ b) ++ c = a ++ (b ++ c).
Proof. induction a as [ | x a IH ]; simpl; [ reflexivity | now rewrite IH ]. Qed.

Lemma toISOString_date tv :
  0 <= YearFromTime tv <= 9999 ->
  exists rest, toISOString_valid tv = calendar_date tv ++ String "T" rest.
Proof.
  intros Y. unfold toISOString_valid, calendar_date.
  pose proof (MonthFromTime_range tv) as M.
  pose proof (DateFromTime_range tv) as D.
  destruct (Z.leb_spec 0 (YearFromTime tv)); [ | lia ].
  destruct (Z.leb_spec (YearFromTime tv) 9999); [ | lia ].
  cbn [andb].
  rewrite padded_four, !(padded_two (MonthFromTime tv + 1)),
    !(padded_two (DateFromTime tv)) by lia.
  eexists. rewrite !append_assoc. reflexivity.
Qed.

Lemma display_date_valid host s tv :
  JS.truthy_string s = true ->
  new_Date host s = Some tv ->
  0 <= YearFromTime tv <= 9999 ->
  display_date host (Some s) = JS.Normal (VString (calendar_date tv)).
Proof.
  intros T N Y. unfold display_date. rewrite T, N. simpl.
  destruct (toISOString_date tv Y) as (rest & ->).
  rewrite split_before by now apply shape_no_time, calendar_date_shape.
  reflexivity.
Qed.

Lemma display_date_invalid host s :
  JS.truthy_string s = true ->
  new_Date host s = None ->
  display_date host (Some s) = JS.Throw (JS.RangeError "Invalid time value").
Proof. intros T N. unfold display_date. now rewrite T, N. Qed.

Lemma two_digits_num2 a b v :
  num2 a b = Some v ->
  two_digits v = String a (String b EmptyString) /\ 0 <= v <= 99.
Proof.
  unfold num2.
  destruct (digit_val a) as [x | ] eqn:A; [ | discriminate ].
  destruct (digit_val b) as [y | ] eqn:B; [ | discriminate ].
  intros E. replace v with (10 * x + y) by congruence. clear E.
  apply digit_char_val in A as [<- RA]. apply digit_char_val in B as [<- RB].
  split; [ | lia ]. unfold two_digits.
  rewrite <- (Z.div_unique (10 * x + y) 10 x y) by lia.
  rewrite <- (Z.mod_unique (10 * x + y) 10 x y) by lia.
  reflexivity.
Qed.

Lemma four_digits_num4 a b c d v :
  num4 a b c d = Some v ->
  four_digits v = String a (String b (String c (String d EmptyString)))
  /\ 0 <= v <= 9999.
Proof.
  unfold num4.
  destruct (num2 a b) as [x | ] eqn:A; [ | discriminate ].
  destruct (num2 c d) as [y | ] eqn:B; [ | discriminate ].
  intros E. replace v with (100 * x + y) by congruence. clear E.
  apply two_digits_num2 in A as [A RA]. apply two_digits_num2 in B as [B RB].
  split; [ | lia ]. unfold four_digits.
  rewrite <- (Z.div_unique (100 * x + y) 100 x y) by lia.
  rewrite <- (Z.mod_unique (100 * x + y) 100 x y) by lia.
  now rewrite A, B.
Qed.

Lemma is_digit_val c : is_digit c = true -> exists v, digit_val c = Some v.
Proof. unfold is_digit. destruct (digit_val c) as [v | ]; [ now exists v | discriminate ]. Qed.

Lemma parse_date_only s :
  is_YYYY_MM_DD s = true ->
  exists y m d,
    parse_date s = Some (y, m, d, EmptyString) /\
    s = four_digits y ++ "-" ++ two_digits m ++ "-" ++ two_digits d /\
    0 <= y <= 9999.
Proof.
  do 10 (destruct s as [ | ? s ]; [ discriminate | ]).
  destruct s; [ | discriminate ].
  unfold is_YYYY_MM_DD. rewrite !andb_true_iff.
  intros [[[[[[[[[Y1 Y2] Y3] Y4] P] M1] M2] Q] D1] D2].
  apply Ascii.eqb_eq in P, Q. subst.
  apply is_digit_val in Y1 as [y1 Y1], Y2 as [y2 Y2], Y3 as [y3 Y3], Y4 as [y4 Y4],
    M1 as [m1 M1], M2 as [m2 M2], D1 as [d1 D1], D2 as [d2 D2].
  assert (Y : num4 a a0 a1 a2 = Some (100 * (10 * y1 + y2) + (10 * y3 + y4)))
    by (unfold num4, num2; now rewrite Y1, Y2, Y3, Y4).
  assert (M : num2 a4 a5 = Some (10 * m1 + m2)) by (unfold num2; now rewrite M1, M2).
  assert (D : num2 a7 a8 = Some (10 * d1 + d2)) by (unfold num2; now rewrite D1, D2).
  eexists _, _, _. split; [ | split ].
  - unfold parse_date. rewrite !Ascii.eqb_refl, Y, M, D. reflexivity.
  - destruct (four_digits_num4 _ _ _ _ _ Y) as [-> _].
    destruct (two_digits_num2 _ _ _ M) as [-> _].
    destruct (two_digits_num2 _ _ _ D) as [-> _]. reflexivity.
  - now destruct (four_digits_num4 _ _ _ _ _ Y).
Qed.

Lemma DayFromYear_bounds y : 0 <= y <= 9999 -> -719528 <= DayFromYear y <= 2932532.
Proof. unfold DayFromYear. intros H. Z.div_mod_to_equations. lia. Qed.

Lemma new_Date_date_only host s :
  real_calendar_date s = true ->
  exists y m d,
    s = four_digits y ++ "-" ++ two_digits m ++ "-" ++ two_digits d /\
    0 <= y <= 9999 /\ 1 <= m <= 12 /\ 1 <= d <= days_in_month y m /\
    new_Date host s = Some (MakeDate (MakeDay y (m - 1) d) 0).
Proof.
  unfold real_calendar_date. intros H. apply andb_true_iff in H as [Sh V].
  destruct (parse_date_only s Sh) as (y & m & d & P & E & Y).
  rewrite P in V. rewrite !andb_true_iff in V. destruct V as [[[M1 M2] D1] D2].
  apply Z.leb_le in M1, M2, D1, D2.
  exists y, m, d. repeat split; try lia; try exact E.
  assert (D31 : d <= 31).
  { unfold days_in_month in D2.
    destruct m as [ | [ [ [ [ | | ] | [ | | ] | ] | [ [ | | ] | [ | | ] | ] | ]
                      | [ [ | | ] | [ [ | | ] | [ | | ] | ] | ] | ] | ];
      destruct (leap_year y); lia. }
  unfold new_Date, parse, iso_parse. rewrite P. unfold date_value.
  destruct (Z.ltb_spec m 1); [ lia | ].
  destruct (Z.ltb_spec 12 m); [ lia | ].
  destruct (Z.ltb_spec d 1); [ lia | ].
  destruct (Z.ltb_spec 31 d); [ lia | ].
  destruct (Z.ltb_spec (days_in_month y m) d); [ lia | ].
  cbn [orb].
  assert (C : TimeClip (MakeDate (MakeDay y (m - 1) d) 0)
              = Some (MakeDate (MakeDay y (m - 1) d) 0)).
  { unfold TimeClip, MakeDate, MakeDay.
    rewrite (Z.div_small (m - 1) 12), (Z.mod_small (m - 1) 12) by lia.
    rewrite !Z.add_0_r.
    pose proof (DayFromYear_bounds y Y) as B.
    assert (0 <= days_before_month (leap_year y) (m - 1) <= 335).
    { remember (m - 1) as mn eqn:Emn.
      assert (Cm : m = 1 \/ m = 2 \/ m = 3 \/ m = 4 \/ m = 5 \/ m = 6 \/ m = 7 \/ m = 8
              \/ m = 9 \/ m = 10 \/ m = 11 \/ m = 12) by lia.
      clear - Emn Cm.
      destruct (leap_year y); decompose [or] Cm; subst m; vm_compute in Emn; subst mn;
      cbv [days_before_month]; lia. }
    unfold msPerDay.
    destruct (Z.leb_spec (Z.abs
      ((DayFromYear y + days_before_month (leap_year y) (m - 1) + d - 1) * 86400000))
       8640000000000000); [ reflexivity | lia ]. }
  rewrite C. exact C.
Qed.

(** A date given as [YYYY-MM-DD] comes back from the initialiser as it
    was given. *)
Lemma date_only_roundtrip host s :
  real_calendar_date s = true -> display_date host (Some s) = JS.Normal (VString s).
Proof.
  intros H. destruct (new_Date_date_only host s H) as (y & m & d & E & Y & M & D & N).
  destruct (calendar_roundtrip y m d M D) as (Ey & Em & Ed).
  assert (T : JS.truthy_string s = true) by (rewrite E; reflexivity).
  rewrite (display_date_valid host s _ T N) by (rewrite Ey; exact Y).
  unfold calendar_date. rewrite Ey, Em, Ed.
  replace (m - 1 + 1) with m by lia. now rewrite <- E.
Qed.

End DateStrings.

(** ** Strings *)

Lemma truthy_append a b :
  JS.truthy_string (a ++ b) = JS.truthy_string a || JS.truthy_string b.
Proof. destruct a; reflexivity. Qed.

Lemma or_string_truthy s d :
  JS.truthy_string s = true -> JS.or_string (Some s) d = s.
Proof. unfold JS.or_string. now intros ->. Qed.

(** [x || ''] is [x] for every string [x]. *)
Lemma or_string_empty s : JS.or_string (Some s) "" = s.
Proof. destruct s; reflexivity. Qed.

Lemma digits_truthy s : JS.truthy_string (JS.digits s) = true.
Proof.
  unfold JS.digits.
  pose proof (DecimalPos.Unsigned.to_uint_nonnil s) as H.
  destruct (Pos.to_uint s); try reflexivity.
  now elim H.
Qed.

Lemma toString_finite_truthy ds n :
  JS.truthy_string ds = true -> JS.truthy_string (JS.toString_finite ds n) = true.
Proof.
  intros Hds. unfold JS.toString_finite.
  repeat match goal with
         | |- context [if ?b then _ else _] => destruct b
         end;
    repeat (rewrite truthy_append; cbn [JS.truthy_string]);
    rewrite ?Hds, ?orb_true_r; reflexivity.
Qed.

(** A Number never prints as the empty string. *)
Lemma Number_toString_truthy x : JS.truthy_string (JS.Number_toString x) = true.
Proof.
  destruct x as [ | [] | | [] s n ]; try reflexivity.
  apply toString_finite_truthy, digits_truthy.
Qed.

(** ** Objects *)

Lemma get_set_same o k v : Obj.get (Obj.set o k v) k = v.
Proof.
  induction o as [ | [k' v'] o IH ]; simpl.
  - now rewrite String.eqb_refl.
  - destruct (String.eqb_spec k' k) as [E | N]; simpl.
    + now rewrite E, String.eqb_refl.
    + apply String.eqb_neq in N. now rewrite N.
Qed.

Lemma get_set_other o k v k' :
  k' <> k -> Obj.get (Obj.set o k v) k' = Obj.get o k'.
Proof.
  intros N. induction o as [ | [k0 v0] o IH ]; simpl.
  - apply not_eq_sym, String.eqb_neq in N. now rewrite N.
  - destruct (String.eqb_spec k0 k) as [E | N0]; simpl.
    + subst k0. apply not_eq_sym, String.eqb_neq in N. now rewrite N.
    + now rewrite IH.
Qed.

Lemma keys_set_present o k v :
  In k (Obj.keys o) -> Obj.keys (Obj.set o k v) = Obj.keys o.
Proof.
  induction o as [ | [k' v'] o IH ]; simpl; intros H.
  - contradiction.
  - destruct (String.eqb_spec k' k) as [E | N]; simpl.
    + reflexivity.
    + f_equal. apply IH. destruct H as [H | H]; [ contradiction | exact H ].
Qed.

Lemma keys_set_absent o k v :
  ~ In k (Obj.keys o) -> Obj.keys (Obj.set o k v) = (Obj.keys o ++ [k])%list.
Proof.
  induction o as [ | [k' v'] o IH ]; simpl; intros H.
  - reflexivity.
  - destruct (String.eqb_spec k' k) as [E | N]; simpl.
    + elim H. now left.
    + f_equal. apply IH. intros I. apply H. now right.
Qed.

(** ** Field edits *)

(** [handleChange] touches neither [isSubmitting] nor [formError] and
    performs no effect. *)
Lemma handleChange_frame name value st :
  isSubmitting (exec (handleChange name value) st) = isSubmitting st /\
  formError (exec (handleChange name value) st) = formError st /\
  output (handleChange name value) st = [].
Proof. repeat split. Qed.

(** C6.  A field edit with the name [F] of one of the fields of the form
    state and the new string [V] puts [V] in field [F], leaves every other
    field as it was, and keeps the set and order of the fields. *)
Theorem handleChange_replaces_one_field (st : State) (F V : string) :
  In F (Obj.keys (formData st)) ->
  let st' := exec (handleChange F V) st in
  Obj.get (formData st') F = VString V /\
  (forall G, G <> F -> Obj.get (formData st') G = Obj.get (formData st) G) /\
  Obj.keys (formData st') = Obj.keys (formData st).
Proof.
  intros HF st'. subst st'. unfold exec, handleChange, setFormData. simpl.
  split; [ apply get_set_same | split ].
  - intros G HG. now apply get_set_other.
  - now apply keys_set_present.
Qed.

Lemma handleChange_replaces_one_field_witness :
  Obj.get (formData (exec (handleChange "cost" "60") (fresh oil_change_form))) "cost"
  = VString "60" /\
  Obj.get (formData (exec (handleChange "cost" "60") (fresh oil_change_form))) "notes"
  = VString "".
Proof.
  destruct (handleChange_replaces_one_field (fresh oil_change_form) "cost" "60")
    as (H1 & H2 & _).
  - simpl. tauto.
  - split; [ exact H1 | ]. rewrite H2; [ reflexivity | discriminate ].
Defined.

(** ** The payload *)

Lemma or_toString_coercion v :
  JS.or_string (optional_toString v) "" = string_coercion v.
Proof.
  destruct v as [ | | n | s ]; try reflexivity.
  - apply or_string_truthy, Number_toString_truthy.
  - apply or_string_empty.
Qed.

Lemma build_formDataObj_map fd :
  build_formDataObj fd = map (fun kv => (fst kv, string_coercion (snd kv))) fd.
Proof.
  unfold build_formDataObj, Obj.entries.
  enough (G : forall acc,
             fold_left
               (fun formDataObj '(key, value) =>
                  append formDataObj key (JS.or_string (optional_toString value) ""))
               fd acc
             = (acc ++ map (fun kv => (fst kv, string_coercion (snd kv))) fd)%list)
    by apply (G []).
  induction fd as [ | [k v] fd IH ]; intros acc; simpl.
  - now rewrite app_nil_r.
  - rewrite IH. unfold append. rewrite <- app_assoc. simpl.
    now rewrite or_toString_coercion.
Qed.

Lemma payload_get_map fd k :
  In k (Obj.keys fd) ->
  payload_get (map (fun kv => (fst kv, string_coercion (snd kv))) fd) k
  = Some (string_coercion (Obj.get fd k)).
Proof.
  induction fd as [ | [k' v] fd IH ]; simpl; intros H.
  - contradiction.
  - destruct (String.eqb_spec k' k) as [E | N]; [ reflexivity | ].
    apply IH. destruct H as [H | H]; [ contradiction | exact H ].
Qed.

(** C2.  For a form state with the ten fields, the submit handler calls
    the update action once, with a payload whose keys are exactly [id],
    [vehicle_id], [service_type], [description], [date_performed],
    [next_due_date], [cost], [status], [service_provider], [notes], each
    value being the string coercion of the field of that name (the empty
    string for null and undefined). *)
Theorem handleSubmit_payload (st : State) :
  Obj.keys (formData st) = form_keys ->
  exists payload,
    output handleSubmit_call st = [PreventDefault; UpdateMaintenanceRecord payload] /\
    map fst payload = form_keys /\
    (forall k, In k form_keys ->
       payload_get payload k = Some (string_coercion (Obj.get (formData st) k))) /\
    (forall k, In k form_keys ->
       Obj.get (formData st) k = VNull \/ Obj.get (formData st) k = VUndefined ->
       payload_get payload k = Some "").
Proof.
  intros K. exists (build_formDataObj (formData st)).
  assert (G : forall k, In k form_keys ->
                payload_get (build_formDataObj (formData st)) k
                = Some (string_coercion (Obj.get (formData st) k))).
  { intros k Hk. rewrite build_formDataObj_map. apply payload_get_map.
    now rewrite K. }
  repeat split.
  - rewrite build_formDataObj_map, map_map. simpl. exact K.
  - exact G.
  - intros k Hk [E | E]; rewrite (G k Hk), E; reflexivity.
Qed.

Lemma handleSubmit_payload_witness :
  exists payload,
    output handleSubmit_call (fresh oil_change_form)
    = [PreventDefault; UpdateMaintenanceRecord payload] /\
    payload_get payload "id" = Some "7" /\
    payload_get payload "cost" = Some "45.5".
Proof.
  destruct (handleSubmit_payload (fresh oil_change_form) eq_refl) as (p & O & _ & V & _).
  exists p. split; [ exact O | ].
  split; (rewrite V; [ reflexivity | simpl; tauto ]).
Defined.

(** ** Submissions *)

(** The state and the effects of a whole submission, by outcome. *)
Lemma handleSubmit_success st result :
  success result = true ->
  exec (handleSubmit (Resolved result)) st
  = {| isSubmitting := true; formError := None; formData := formData st |} /\
  output (handleSubmit (Resolved result)) st
  = [ PreventDefault; UpdateMaintenanceRecord (build_formDataObj (formData st));
      RouterPush "/dashboard/maintenance"; RouterRefresh ].
Proof.
  intros S. unfold exec, output, handleSubmit, handleSubmit_call, handleSubmit_resume.
  rewrite S. split; reflexivity.
Qed.

Lemma handleSubmit_failure st result :
  success result = false ->
  exec (handleSubmit (Resolved result)) st
  = {| isSubmitting := false;
       formError := Some (JS.or_string (message result)
                            "An error occurred while updating the maintenance record");
       formData := formData st |} /\
  output (handleSubmit (Resolved result)) st
  = [ PreventDefault; UpdateMaintenanceRecord (build_formDataObj (formData st)) ].
Proof.
  intros S. unfold exec, output, handleSubmit, handleSubmit_call, handleSubmit_resume.
  rewrite S. split; reflexivity.
Qed.

Lemma handleSubmit_rejected st :
  exec (handleSubmit Rejected) st
  = {| isSubmitting := false;
       formError := Some "An unexpected error occurred. Please try again.";
       formData := formData st |} /\
  output (handleSubmit Rejected) st
  = [ PreventDefault; UpdateMaintenanceRecord (build_formDataObj (formData st));
      ConsoleError "Error submitting form:" ].
Proof. split; reflexivity. Qed.

(** C3, as the component has it.  After a submission that the update
    action answers with a failure result: a non-empty message is the text
    of the banner, exactly; a result without a message, or with the empty
    string as message, gives the banner the text "An error occurred while
    updating the maintenance record"; and the submit button is enabled
    again. *)
Theorem failure_banner (st : State) (result : Result) :
  success result = false ->
  let st' := exec (handleSubmit (Resolved result)) st in
  (forall X, message result = Some X -> X <> "" -> banner st' = Some X) /\
  (message result = None \/ message result = Some "" ->
   banner st' = Some "An error occurred while updating the maintenance record") /\
  submit_disabled st' = false.
Proof.
  intros S st'. subst st'.
  destruct (handleSubmit_failure st result S) as [-> _].
  unfold banner, submit_disabled. simpl. repeat split.
  - intros X -> NX. destruct X; [ now elim NX | reflexivity ].
  - intros [-> | ->]; reflexivity.
Qed.

Lemma failure_banner_witness :
  banner (exec (handleSubmit (failure (Some "Vehicle not found"))) (fresh oil_change_form))
  = Some "Vehicle not found" /\
  submit_disabled
    (exec (handleSubmit (failure (Some "Vehicle not found"))) (fresh oil_change_form))
  = false.
Proof.
  destruct (failure_banner (fresh oil_change_form)
              {| success := false; message := Some "Vehicle not found" |} eq_refl)
    as (H1 & _ & H3).
  split; [ apply (H1 _ eq_refl); discriminate | exact H3 ].
Defined.

(** C3 as stated fails for the empty message: the banner then shows the
    fallback text, not the message. *)
Lemma failure_banner_empty_message :
  banner (exec (handleSubmit (failure (Some ""))) (fresh oil_change_form)) <> Some "".
Proof. vm_compute. discriminate. Qed.

(** C4, as the component has it.  After a submission whose call throws,
    the banner shows "An unexpected error occurred. Please try again.",
    the submitting state is cleared and the submit button enabled, and the
    form state is the one submitted; [isSubmitting] and [formData] are
    those an explicit failure without message leaves, and only the text
    of the banner differs. *)
Theorem thrown_error_banner (st : State) :
  let st' := exec (handleSubmit Rejected) st in
  let st_f := exec (handleSubmit (failure None)) st in
  banner st' = Some "An unexpected error occurred. Please try again." /\
  isSubmitting st' = false /\
  submit_disabled st' = false /\
  formData st' = formData st /\
  isSubmitting st' = isSubmitting st_f /\
  formData st' = formData st_f /\
  banner st_f = Some "An error occurred while updating the maintenance record".
Proof. repeat split. Qed.

(** C4 as stated fails: the banner after a thrown error is not the banner
    after an explicit failure without message. *)
Lemma thrown_error_not_identical :
  banner (exec (handleSubmit Rejected) (fresh oil_change_form))
  <> banner (exec (handleSubmit (failure None)) (fresh oil_change_form)).
Proof. vm_compute. discriminate. Qed.

(** C5.  After a submission that the update action answers with a success
    result, the component has navigated exactly once, to the listing route
    [/dashboard/maintenance], has requested one refresh after it, and
    shows no banner. *)
Theorem success_navigates_once (st : State) (result : Result) :
  success result = true ->
  let out := output (handleSubmit (Resolved result)) st in
  pushes out = ["/dashboard/maintenance"] /\
  refreshes out = 1%nat /\
  (exists before, out = (before ++ [RouterPush "/dashboard/maintenance"; RouterRefresh])%list) /\
  banner (exec (handleSubmit (Resolved result)) st) = None.
Proof.
  intros S out. subst out.
  destruct (handleSubmit_success st result S) as [-> ->].
  repeat split.
  now exists [PreventDefault; UpdateMaintenanceRecord (build_formDataObj (formData st))].
Qed.

Lemma success_navigates_once_witness :
  pushes (output (handleSubmit (Resolved {| success := true; message := None |}))
            (fresh oil_change_form))
  = ["/dashboard/maintenance"].
Proof.
  exact (proj1 (success_navigates_once (fresh oil_change_form)
                  {| success := true; message := None |} eq_refl)).
Defined.

(** C7.  A submission that fails, by an explicit failure result or by a
    thrown error, leaves the form state as it was submitted and enables
    the submit button again. *)
Theorem failed_submission_keeps_form (st : State) (o : outcome) :
  failed o = true ->
  formData (exec (handleSubmit o) st) = formData st /\
  submit_disabled (exec (handleSubmit o) st) = false.
Proof.
  destruct o as [result | ]; simpl; intros F.
  - apply negb_true_iff in F.
    destruct (handleSubmit_failure st result F) as [-> _]. split; reflexivity.
  - split; reflexivity.
Qed.

Lemma failed_submission_keeps_form_witness :
  formData (exec (handleSubmit (failure (Some "Vehicle not found")))
              (exec (handleChange "cost" "60") (fresh oil_change_form)))
  = Obj.set oil_change_form "cost" (VString "60").
Proof.
  exact (proj1 (failed_submission_keeps_form
                  (exec (handleChange "cost" "60") (fresh oil_change_form))
                  (failure (Some "Vehicle not found")) eq_refl)).
Defined.

(** ** The mounted component *)

Lemma one_in_flight_step c e c' :
  one_in_flight c -> dispatch c e = Some c' -> one_in_flight c'.
Proof.
  unfold one_in_flight. intros [Hle Hsub] D.
  destruct e as [ | name value | o ]; simpl in D.
  - unfold submit_disabled in D.
    destruct (isSubmitting (state c)) eqn:E; injection D as <-.
    + split; [ exact Hle | intros _; exact E ].
    + assert (Z0 : inFlight c = 0%nat).
      { destruct (inFlight c) as [ | [ | n ] ]; [ reflexivity | | lia ].
        specialize (Hsub eq_refl). discriminate. }
      unfold run; simpl. rewrite Z0. split; [ lia | reflexivity ].
  - injection D as <-. unfold run; simpl. split; [ exact Hle | exact Hsub ].
  - destruct (inFlight c) as [ | n ] eqn:E; [ discriminate | ].
    injection D as <-. unfold run; simpl. split; [ lia | intros En; lia ].
Qed.

Lemma one_in_flight_run es : forall c c',
  one_in_flight c -> dispatch_all c es = Some c' -> one_in_flight c'.
Proof.
  induction es as [ | e es IH ]; simpl; intros c c' I D.
  - now injection D as <-.
  - destruct (dispatch c e) as [c1 | ] eqn:E; [ | discriminate ].
    eapply IH; [ eapply one_in_flight_step; eassumption | exact D ].
Qed.

Lemma mount_one_in_flight host r c0 :
  mount host r = JS.Normal c0 -> one_in_flight c0.
Proof.
  unfold mount. destruct (initialFormData host r); [ | discriminate ].
  intros [= <-]. split; simpl; [ lia | discriminate ].
Qed.

Lemma stuck_submitting_step c e c' :
  stuck_submitting c -> dispatch c e = Some c' -> stuck_submitting c'.
Proof.
  intros [H0 Hs] D. destruct e as [ | name value | o ]; simpl in D.
  - unfold submit_disabled in D. rewrite Hs in D. injection D as <-. now split.
  - injection D as <-. now split.
  - rewrite H0 in D. discriminate.
Qed.

Lemma stuck_submitting_run es : forall c c',
  stuck_submitting c -> dispatch_all c es = Some c' -> stuck_submitting c'.
Proof.
  induction es as [ | e es IH ]; simpl; intros c c' I D.
  - now injection D as <-.
  - destruct (dispatch c e) as [c1 | ] eqn:E; [ | discriminate ].
    eapply IH; [ eapply stuck_submitting_step; eassumption | exact D ].
Qed.

(** The outstanding calls are the calls made that have not settled. *)
Lemma calls_app a b : calls (a ++ b) = (calls a + calls b)%nat.
Proof.
  induction a as [ | e a IH ]; simpl; [ reflexivity | ].
  destruct e; simpl; rewrite IH; reflexivity.
Qed.

Lemma calls_resume o st : calls (output (handleSubmit_resume o) st) = 0%nat.
Proof.
  destruct o as [result | ]; [ | reflexivity ].
  unfold output, handleSubmit_resume. now destruct (success result).
Qed.

Lemma calls_accounted es : forall c c',
  dispatch_all c es = Some c' ->
  (calls (trace c') + inFlight c = calls (trace c) + inFlight c' + settled es)%nat.
Proof.
  induction es as [ | e es IH ]; simpl; intros c c' D.
  - injection D as <-. lia.
  - destruct (dispatch c e) as [c1 | ] eqn:E; [ | discriminate ].
    specialize (IH c1 c' D).
    destruct e as [ | name value | o ]; simpl in E.
    + destruct (submit_disabled (state c)); injection E as <-; [ lia | ].
      unfold run in IH; simpl in IH. rewrite calls_app in IH. simpl in IH. lia.
    + injection E as <-. unfold run in IH; simpl in IH.
      rewrite app_nil_r in IH. lia.
    + destruct (inFlight c) as [ | n ]; [ discriminate | ]. injection E as <-.
      unfold run in IH; simpl in IH. rewrite calls_app, calls_resume in IH. lia.
Qed.

(** The form state keeps its ten fields. *)
Lemma initialFormData_keys host r fd :
  initialFormData host r = JS.Normal fd -> Obj.keys fd = form_keys.
Proof.
  unfold initialFormData.
  destruct (display_date host (date_performed r)); [ | discriminate ].
  destruct (display_date host (next_due_date r)); [ | discriminate ].
  now intros [= <-].
Qed.

Lemma input_names_are_fields name : In name input_names -> In name form_keys.
Proof. intros H. right. exact H. Qed.

Lemma resume_formData o st :
  formData (exec (handleSubmit_resume o) st) = formData st.
Proof.
  destruct o as [result | ]; [ | reflexivity ].
  unfold exec, handleSubmit_resume. now destruct (success result).
Qed.

Lemma form_keys_run es : forall c c',
  dispatch_all c es = Some c' -> from_inputs es ->
  Obj.keys (formData (state c)) = form_keys ->
  Obj.keys (formData (state c')) = form_keys.
Proof.
  induction es as [ | e es IH ]; simpl; intros c c' D F K.
  - now injection D as <-.
  - destruct (dispatch c e) as [c1 | ] eqn:E; [ | discriminate ].
    destruct e as [ | name value | o ]; simpl in E.
    + destruct (submit_disabled (state c)); injection E as <-;
        apply (IH _ _ D F); exact K.
    + injection E as <-. destruct F as [Fn F]. apply (IH _ _ D F).
      unfold run, exec, handleChange, setFormData. simpl.
      rewrite keys_set_present; [ exact K | ].
      rewrite K. now apply input_names_are_fields.
    + destruct (inFlight c) as [ | n ]; [ discriminate | ]. injection E as <-.
      apply (IH _ _ D F). unfold run. simpl. now rewrite resume_formData.
Qed.

(** Every form state the mounted component reaches through its controls
    has the ten fields, in the order of the initialiser. *)
Lemma reachable_form_keys host r c0 es c :
  mount host r = JS.Normal c0 ->
  dispatch_all c0 es = Some c -> from_inputs es ->
  Obj.keys (formData (state c)) = form_keys.
Proof.
  unfold mount. destruct (initialFormData host r) as [fd | ] eqn:I; [ | discriminate ].
  intros [= <-] D F. apply (form_keys_run es _ _ D F). simpl.
  eapply initialFormData_keys, I.
Qed.

(** Only the end of a failed submission takes the component out of the
    submitting state. *)
Lemma only_failure_clears_submitting c e c' :
  dispatch c e = Some c' ->
  isSubmitting (state c) = true -> isSubmitting (state c') = false ->
  exists o, e = Settle o /\ failed o = true.
Proof.
  intros D Hs Hc. destruct e as [ | name value | o ]; simpl in D.
  - unfold submit_disabled in D. rewrite Hs in D. injection D as <-. congruence.
  - injection D as <-. simpl in Hc. congruence.
  - exists o. split; [ reflexivity | ].
    destruct (inFlight c) as [ | n ]; [ discriminate | ]. injection D as <-.
    destruct o as [result | ]; [ | reflexivity ]. simpl.
    destruct (success result) eqn:S; [ | reflexivity ].
    unfold run, exec, handleSubmit_resume in Hc. rewrite S in Hc. simpl in Hc.
    congruence.
Qed.

(** C9.  In every state the mounted component reaches through user
    events and settling calls, the calls of the update action made and not
    yet settled are at most one; while one is outstanding, the component
    is submitting, the submit button is disabled, and a click on it
    changes nothing and starts no call. *)
Theorem at_most_one_submission host r c0 es c :
  mount host r = JS.Normal c0 ->
  dispatch_all c0 es = Some c ->
  calls (trace c) = (inFlight c + settled es)%nat /\
  (inFlight c <= 1)%nat /\
  (inFlight c = 1%nat ->
   isSubmitting (state c) = true /\
   submit_disabled (state c) = true /\
   dispatch c SubmitClick = Some c).
Proof.
  intros Hm D.
  destruct (one_in_flight_run es c0 c (mount_one_in_flight _ _ _ Hm) D) as [Hle Hs].
  split; [ | split; [ exact Hle | ] ].
  - pose proof (calls_accounted es c0 c D) as A.
    unfold mount in Hm. destruct (initialFormData host r); [ | discriminate ].
    injection Hm as <-. simpl in A. lia.
  - intros E. specialize (Hs E). repeat split; try exact Hs.
    simpl. unfold submit_disabled. now rewrite Hs.
Qed.

Example mount_oil_change :
  mount no_host_parse oil_change = JS.Normal (fresh_mount oil_change_form).
Proof. vm_compute. reflexivity. Qed.

Lemma at_most_one_submission_witness :
  exists c,
    dispatch_all (fresh_mount oil_change_form)
      [SubmitClick; Change "cost" "60"; SubmitClick] = Some c /\
    inFlight c = 1%nat /\
    dispatch c SubmitClick = Some c.
Proof.
  eexists. split; [ reflexivity | ]. split; [ reflexivity | ].
  destruct (at_most_one_submission no_host_parse oil_change
              (fresh_mount oil_change_form)
              [SubmitClick; Change "cost" "60"; SubmitClick] _
              mount_oil_change eq_refl) as (_ & _ & H).
  apply H. reflexivity.
Defined.

(** C10.  Once a call has settled with a success result, the component
    stays in the submitting state through every later event: the submit
    button stays disabled under the label "Updating...".  An event that
    takes the component out of the submitting state is the end of a
    failed submission. *)
Theorem success_keeps_submitting host r c0 es1 c1 result c2 es2 c3 :
  mount host r = JS.Normal c0 ->
  dispatch_all c0 es1 = Some c1 ->
  success result = true ->
  dispatch c1 (Settle (Resolved result)) = Some c2 ->
  dispatch_all c2 es2 = Some c3 ->
  (isSubmitting (state c3) = true /\
   submit_disabled (state c3) = true /\
   submit_label (state c3) = "Updating...") /\
  (forall c e c',
     dispatch c e = Some c' ->
     isSubmitting (state c) = true -> isSubmitting (state c') = false ->
     exists o, e = Settle o /\ failed o = true).
Proof.
  intros Hm D1 S D2 D3. split; [ | exact only_failure_clears_submitting ].
  destruct (one_in_flight_run es1 c0 c1 (mount_one_in_flight _ _ _ Hm) D1) as [Hle Hs].
  assert (St : stuck_submitting c2).
  { simpl in D2. destruct (inFlight c1) as [ | n ] eqn:E; [ discriminate | ].
    injection D2 as <-. assert (n = 0%nat) as -> by lia.
    split; [ reflexivity | ].
    unfold run, exec, handleSubmit_resume. rewrite S. simpl. now apply Hs. }
  destruct (stuck_submitting_run es2 c2 c3 St D3) as [_ H].
  unfold submit_disabled, submit_label. rewrite H. repeat split.
Qed.

Lemma success_keeps_submitting_witness :
  exists c,
    dispatch_all (fresh_mount oil_change_form)
      [SubmitClick; Settle (Resolved {| success := true; message := None |});
       SubmitClick; Change "notes" "done"] = Some c /\
    submit_label (state c) = "Updating...".
Proof.
  eexists. split; [ reflexivity | ].
  destruct (success_keeps_submitting no_host_parse oil_change
              (fresh_mount oil_change_form) [SubmitClick] _
              {| success := true; message := None |} _
              [SubmitClick; Change "notes" "done"] _
              mount_oil_change eq_refl eq_refl eq_refl eq_refl) as [(_ & _ & L) _].
  exact L.
Defined.

(** ** The initial form state *)

Lemma display_date_display host x :
  valid_date host x = true ->
  display_date host x = JS.Normal (VString (date_display host x)).
Proof.
  unfold valid_date, date_display. destruct x as [s | ]; [ | reflexivity ].
  destruct (JS.truthy_string s) eqn:T; [ | now unfold display_date; rewrite T ].
  destruct (Date.new_Date host s) as [tv | ] eqn:N; [ | discriminate ].
  intros Y. apply andb_true_iff in Y as [Y0 Y1]. apply Z.leb_le in Y0, Y1.
  apply display_date_valid; [ exact T | exact N | lia ].
Qed.

Lemma display_date_throws host x e :
  display_date host x = JS.Throw e -> e = JS.RangeError "Invalid time value".
Proof.
  unfold display_date. destruct x as [s | ]; [ | discriminate ].
  destruct (JS.truthy_string s); [ | discriminate ].
  destruct (Date.new_Date host s); simpl; [ discriminate | ].
  now intros [= <-].
Qed.

(** A present date that is no date ends the first render with the
    RangeError of [toISOString]. *)
Lemma invalid_date_ends_render host r s :
  date_performed r = Some s \/ next_due_date r = Some s ->
  JS.truthy_string s = true ->
  Date.new_Date host s = None ->
  initialFormData host r = JS.Throw (JS.RangeError "Invalid time value").
Proof.
  intros [E | E] T N; unfold initialFormData.
  - now rewrite E, (display_date_invalid host s T N).
  - destruct (display_date host (date_performed r)) as [p | e] eqn:P.
    + now rewrite E, (display_date_invalid host s T N).
    + now rewrite (display_date_throws _ _ _ P).
Qed.

(** A displayed date is empty when the record has none and has the shape
    [YYYY-MM-DD] when it has one. *)
Lemma date_display_shape host x :
  valid_date host x = true ->
  match x with
  | Some s =>
      if JS.truthy_string s then is_YYYY_MM_DD (date_display host x) = true
      else date_display host x = ""
  | None => date_display host x = ""
  end.
Proof.
  unfold valid_date, date_display. destruct x as [s | ]; [ | reflexivity ].
  destruct (JS.truthy_string s); [ | reflexivity ].
  destruct (Date.new_Date host s) as [tv | ]; [ | discriminate ].
  intros Y. apply andb_true_iff in Y as [Y0 Y1]. apply Z.leb_le in Y0, Y1.
  apply calendar_date_shape. lia.
Qed.

(** A date the record gives as [YYYY-MM-DD] is displayed as it is given. *)
Lemma date_display_date_only host s :
  real_calendar_date s = true ->
  valid_date host (Some s) = true /\ date_display host (Some s) = s.
Proof.
  intros H.
  destruct (new_Date_date_only host s H) as (y & m & d & E & Y & M & D & N).
  destruct (calendar_roundtrip y m d M D) as (Ey & Em & Ed).
  assert (T : JS.truthy_string s = true) by (rewrite E; reflexivity).
  unfold valid_date, date_display. rewrite T, N, Ey. split.
  - apply andb_true_iff. split; apply Z.leb_le; lia.
  - unfold calendar_date. rewrite Ey, Em, Ed.
    replace (m - 1 + 1) with m by lia. now rewrite <- E.
Qed.

Lemma cost_display c :
  JS.or_string (option_map JS.Number_toString c) "0"
  = match c with
    | Some n => JS.Number_toString n
    | None => "0"
    end.
Proof.
  destruct c as [n | ]; [ | reflexivity ].
  apply or_string_truthy, Number_toString_truthy.
Qed.

Lemma text_display x : JS.or_string x "" = default "" x.
Proof. destruct x as [s | ]; [ apply or_string_empty | reflexivity ]. Qed.

(** C1, as the component has it.  For a record whose dates, where
    present, are valid dates of the years 0000 to 9999, the initial form
    state holds: the identifier and the vehicle reference as they are;
    each text field, or the empty string where the record has none; each
    date as [YYYY-MM-DD], or empty where the record has none; the cost
    printed as a Number, or "0"; the status, or "scheduled" where the
    record has none or an empty one.  A date the record gives as the
    [YYYY-MM-DD] of a calendar day is such a valid date and is displayed
    as given.  For the record of the scenario the cost field is "45.5"
    and the next due date "2024-05-01". *)
Theorem initial_form_state (host : string -> option Z) :
  (forall r : MaintenanceRecord,
     valid_date host (date_performed r) = true ->
     valid_date host (next_due_date r) = true ->
     initialFormData host r = JS.Normal
       [ ("id", VNumber (id r));
         ("vehicle_id", VNumber (vehicle_id r));
         ("service_type", VString (default "" (service_type r)));
         ("description", VString (default "" (description r)));
         ("date_performed", VString (date_display host (date_performed r)));
         ("next_due_date", VString (date_display host (next_due_date r)));
         ("cost", VString (match cost r with
                           | Some n => JS.Number_toString n
                           | None => "0"
                           end));
         ("status", VString (match status r with
                             | Some s => if JS.truthy_string s then s else "scheduled"
                             | None => "scheduled"
                             end));
         ("service_provider", VString (default "" (service_provider r)));
         ("notes", VString (default "" (notes r))) ]
     /\ (forall x, x = date_performed r \/ x = next_due_date r ->
         match x with
         | Some s =>
             if JS.truthy_string s then is_YYYY_MM_DD (date_display host x) = true
             else date_display host x = ""
         | None => date_display host x = ""
         end)) /\
  (forall s, real_calendar_date s = true ->
     valid_date host (Some s) = true /\ date_display host (Some s) = s) /\
  (exists fd,
     initialFormData host oil_change = JS.Normal fd /\
     Obj.get fd "cost" = VString "45.5" /\
     Obj.get fd "next_due_date" = VString "2024-05-01").
Proof.
  split; [ | split ].
  - intros r Vp Vd. split.
    + unfold initialFormData.
      rewrite (display_date_display host _ Vp), (display_date_display host _ Vd).
      rewrite cost_display, !text_display. reflexivity.
    + intros x [-> | ->]; now apply date_display_shape.
  - intros s H. now apply date_display_date_only.
  - exists oil_change_form.
    split; [ vm_compute; reflexivity | split; reflexivity ].
Qed.

Lemma initial_form_state_witness :
  initialFormData no_host_parse oil_change = JS.Normal oil_change_form.
Proof.
  exact (proj1 (proj1 (initial_form_state no_host_parse) oil_change eq_refl eq_refl)).
Defined.

(** C1 as stated fails for a record with a date that is no date: the
    render throws and there is no form state. *)
Lemma invalid_date_throws :
  ~ exists host fd, initialFormData host zero_date = JS.Normal fd.
Proof. intros (host & fd & H). vm_compute in H. discriminate H. Qed.

(** ** ISO calendar dates *)

Section IsoDates.
Import Date.
Import Decimal.

Ltac digit_cases a H :=
  let C := fresh "C" in
  assert (C : a = 0 \/ a = 1 \/ a = 2 \/ a = 3 \/ a = 4 \/ a = 5 \/ a = 6 \/ a = 7
              \/ a = 8 \/ a = 9) by lia;
  clear H; decompose [or] C; subst a.

Lemma string_of_digit_uint a d :
  0 <= a <= 9 ->
  NilEmpty.string_of_uint (digit_uint a d)
  = String (digit_char a) (NilEmpty.string_of_uint d).
Proof. intros H. digit_cases a H; reflexivity. Qed.

Lemma of_lu_digit_uint a d :
  0 <= a <= 9 ->
  Unsigned.of_lu (digit_uint a d) = (Z.to_N a + 10 * Unsigned.of_lu d)%N.
Proof. intros H. digit_cases a H; reflexivity. Qed.

Lemma revapp_digit_uint a d d' :
  Decimal.revapp (digit_uint a d) d' = Decimal.revapp d (digit_uint a d').
Proof.
  destruct a as [ | p | p ]; try reflexivity.
  do 4 (destruct p as [ p | p | ]; try reflexivity).
Qed.

Lemma digit_uint_not_nil a d : digit_uint a d <> Nil.
Proof.
  destruct a as [ | p | p ]; try discriminate.
  do 4 (destruct p as [ p | p | ]; try discriminate).
Qed.

Lemma six_digit_values n :
  0 <= n < 1000000 ->
  0 <= n / 10000 / 10 <= 9 /\ 0 <= n / 10000 mod 10 <= 9 /\
  0 <= n mod 10000 / 100 / 10 <= 9 /\ 0 <= n mod 10000 / 100 mod 10 <= 9 /\
  0 <= n mod 10000 mod 100 / 10 <= 9 /\ 0 <= n mod 10000 mod 100 mod 10 <= 9 /\
  n = 100000 * (n / 10000 / 10) + 10000 * (n / 10000 mod 10)
      + 1000 * (n mod 10000 / 100 / 10) + 100 * (n mod 10000 / 100 mod 10)
      + 10 * (n mod 10000 mod 100 / 10) + n mod 10000 mod 100 mod 10.
Proof. intros H. Z.div_mod_to_equations. lia. Qed.

Lemma of_uint_six_uint n :
  0 <= n < 1000000 -> N.of_uint (six_uint n) = Z.to_N n.
Proof.
  intros H. destruct (six_digit_values n H) as (A5 & A4 & A3 & A2 & A1 & A0 & E).
  unfold N.of_uint. rewrite Unsigned.of_uint_alt. unfold six_uint, Decimal.rev.
  rewrite !revapp_digit_uint. cbn [Decimal.revapp].
  rewrite !of_lu_digit_uint by assumption. cbn [Unsigned.of_lu].
  revert E.
  generalize (n / 10000 / 10) (n / 10000 mod 10) (n mod 10000 / 100 / 10)
    (n mod 10000 / 100 mod 10) (n mod 10000 mod 100 / 10)
    (n mod 10000 mod 100 mod 10) A5 A4 A3 A2 A1 A0.
  intros a5 a4 a3 a2 a1 a0 ? ? ? ? ? ? E. lia.
Qed.

Lemma length_append a b :
  String.length (a ++ b) = (String.length a + String.length b)%nat.
Proof. induction a as [ | c a IH ]; simpl; [ reflexivity | now rewrite IH ]. Qed.

Lemma length_repeat_char c n : String.length (JS.repeat_char c n) = n.
Proof. induction n as [ | n IH ]; simpl; [ reflexivity | now rewrite IH ]. Qed.

Lemma repeat_char_snoc c n :
  JS.repeat_char c n ++ String c EmptyString = JS.repeat_char c (S n).
Proof. induction n as [ | n IH ]; simpl; [ reflexivity | now rewrite IH ]. Qed.

Lemma nzhead_padding d :
  exists z, NilEmpty.string_of_uint d
            = JS.repeat_char "0" z ++ NilEmpty.string_of_uint (Decimal.nzhead d).
Proof.
  induction d as [ | d [z IH] | d _ | d _ | d _ | d _ | d _ | d _ | d _ | d _ | d _ ];
    try (now exists O).
  exists (S z). cbn. now rewrite IH.
Qed.

(** Padding the normal form of [d] with zeros to the length of [d] gives
    the digits of [d]. *)
Lemma padded_unorm d :
  d <> Nil ->
  JS.repeat_char "0"
    (String.length (NilEmpty.string_of_uint d)
     - String.length (NilZero.string_of_uint (Decimal.unorm d)))
    ++ NilZero.string_of_uint (Decimal.unorm d)
  = NilEmpty.string_of_uint d.
Proof.
  intros N. destruct (nzhead_padding d) as [z E].
  unfold Decimal.unorm. rewrite E, length_append, length_repeat_char.
  destruct (Decimal.nzhead d) eqn:H;
    try (cbn [NilZero.string_of_uint];
         replace (z + _ - _)%nat with z by lia; reflexivity).
  cbn. rewrite Nat.add_0_r.
  destruct z as [ | z ].
  - destruct d; try discriminate E. now elim N.
  - cbn [Nat.sub]. rewrite Nat.sub_0_r.
    change (JS.repeat_char "0" z ++ "0" = JS.repeat_char "0" (S z) ++ "").
    rewrite repeat_char_snoc. clear. induction (S z); simpl; [ reflexivity | now f_equal ].
Qed.

Lemma six_uint_string n :
  0 <= n < 1000000 -> NilEmpty.string_of_uint (six_uint n) = six_digits n.
Proof.
  intros H. destruct (six_digit_values n H) as (A5 & A4 & A3 & A2 & A1 & A0 & _).
  unfold six_uint. rewrite !string_of_digit_uint by assumption. reflexivity.
Qed.

Lemma padded_six n :
  0 <= n < 1000000 -> ToZeroPaddedDecimalString n 6 = six_digits n.
Proof.
  intros H. unfold ToZeroPaddedDecimalString, JS.decimal_of_N.
  rewrite <- (of_uint_six_uint n H), DecimalN.Unsigned.to_of.
  rewrite <- (six_uint_string n H).
  assert (L : String.length (NilEmpty.string_of_uint (six_uint n)) = 6%nat).
  { rewrite (six_uint_string n H). reflexivity. }
  rewrite <- L. apply padded_unorm. apply digit_uint_not_nil.
Qed.

Lemma new_Date_clipped host s tv :
  new_Date host s = Some tv -> Z.abs tv <= 8640000000000000.
Proof.
  unfold new_Date. destruct (parse host s) as [t | ]; [ | discriminate ].
  unfold TimeClip. destruct (Z.leb_spec (Z.abs t) 8640000000000000); [ | discriminate ].
  now intros [= <-].
Qed.

Lemma year_of_clipped tv :
  Z.abs tv <= 8640000000000000 -> -271821 <= YearFromTime tv <= 275760.
Proof.
  intros H. unfold YearFromTime.
  assert (D : -100000000 <= Day tv <= 100000000)
    by (unfold Day, msPerDay; Z.div_mod_to_equations; lia).
  pose proof (YearFromDay_spec (Day tv)) as S.
  assert (Hi : DayFromYear 275761 = 100000110) by reflexivity.
  assert (Lo : DayFromYear (-271821) = -100000109) by reflexivity.
  split.
  - destruct (Z.le_gt_cases (-271821) (YearFromDay (Day tv))) as [L | G]; [ exact L | ].
    pose proof (DayFromYear_mono (YearFromDay (Day tv) + 1) (-271821) ltac:(lia)). lia.
  - destruct (Z.le_gt_cases (YearFromDay (Day tv)) 275760) as [L | G]; [ exact L | ].
    pose proof (DayFromYear_mono 275761 (YearFromDay (Day tv)) ltac:(lia)). lia.
Qed.

Lemma toISOString_iso tv :
  Z.abs tv <= 8640000000000000 ->
  exists rest, toISOString_valid tv = iso_calendar_date tv ++ String "T" rest.
Proof.
  intros H. pose proof (year_of_clipped tv H) as Y.
  pose proof (MonthFromTime_range tv) as M.
  pose proof (DateFromTime_range tv) as D.
  unfold toISOString_valid, iso_calendar_date, year_digits.
  destruct ((0 <=? YearFromTime tv) && (YearFromTime tv <=? 9999)) eqn:R.
  - apply andb_true_iff in R as [R0 R1]. apply Z.leb_le in R0, R1.
    rewrite padded_four, !(padded_two (MonthFromTime tv + 1)),
      !(padded_two (DateFromTime tv)) by lia.
    eexists. rewrite !append_assoc. reflexivity.
  - rewrite padded_six, !(padded_two (MonthFromTime tv + 1)),
      !(padded_two (DateFromTime tv)) by lia.
    eexists. rewrite !append_assoc. reflexivity.
Qed.

Lemma four_digits_shape n :
  0 <= n <= 9999 ->
  exists a b c d,
    four_digits n = String a (String b (String c (String d EmptyString))) /\
    is_digit a = true /\ is_digit b = true /\ is_digit c = true /\ is_digit d = true.
Proof.
  intros H. unfold four_digits.
  destruct (two_digits_shape (n / 100)) as (a & b & -> & ? & ?);
    [ Z.div_mod_to_equations; lia | ].
  destruct (two_digits_shape (n mod 100)) as (c & d & -> & ? & ?);
    [ Z.div_mod_to_equations; lia | ].
  exists a, b, c, d. repeat split; assumption.
Qed.

Lemma iso_calendar_date_shape tv :
  Z.abs tv <= 8640000000000000 ->
  is_iso_calendar_date (iso_calendar_date tv) = true.
Proof.
  intros H. pose proof (year_of_clipped tv H) as Y.
  pose proof (MonthFromTime_range tv) as M.
  pose proof (DateFromTime_range tv) as D.
  unfold is_iso_calendar_date, iso_calendar_date, year_digits.
  destruct (two_digits_shape (MonthFromTime tv + 1)) as (m1 & m2 & -> & ? & ?);
    [ lia | ].
  destruct (two_digits_shape (DateFromTime tv)) as (d1 & d2 & -> & ? & ?);
    [ lia | ].
  destruct ((0 <=? YearFromTime tv) && (YearFromTime tv <=? 9999)) eqn:R.
  - apply andb_true_iff in R as [R0 R1]. apply Z.leb_le in R0, R1.
    destruct (four_digits_shape (YearFromTime tv)) as (a & b & c & d & -> & ? & ? & ? & ?);
      [ lia | ].
    apply orb_true_iff. left. cbn [String.append is_YYYY_MM_DD].
    rewrite !Ascii.eqb_refl. repeat (apply andb_true_iff; split); auto.
  - unfold six_digits.
    destruct (two_digits_shape (Z.abs (YearFromTime tv) / 10000)) as (a & b & -> & ? & ?);
      [ Z.div_mod_to_equations; lia | ].
    destruct (four_digits_shape (Z.abs (YearFromTime tv) mod 10000))
      as (c & d & e & f & -> & ? & ? & ? & ?);
      [ Z.div_mod_to_equations; lia | ].
    apply orb_true_iff. right.
    destruct (0 <? YearFromTime tv); cbn [String.append is_expanded_date];
      rewrite !Ascii.eqb_refl; repeat (apply andb_true_iff; split); auto.
Qed.

Lemma is_sign_not_sep c : is_sign c = true -> (c =? "T")%char = false.
Proof.
  unfold is_sign. intros H. apply orb_true_iff in H as [H | H];
    apply Ascii.eqb_eq in H; now subst c.
Qed.

Lemma iso_shape_no_time s : is_iso_calendar_date s = true -> contains "T" s = false.
Proof.
  unfold is_iso_calendar_date. intros H. apply orb_true_iff in H as [H | H].
  - now apply shape_no_time.
  - do 13 (destruct s as [ | ? s ]; [ discriminate | ]).
    destruct s; [ | discriminate ].
    unfold is_expanded_date in H. rewrite !andb_true_iff in H.
    destruct H as [[[[[[[[[[[[S Y1] Y2] Y3] Y4] Y5] Y6] P] M1] M2] Q] D1] D2].
    apply Ascii.eqb_eq in P, Q. subst.
    simpl. rewrite (is_sign_not_sep _ S), !is_digit_not_sep by assumption. reflexivity.
Qed.

(** What the initialiser stores for a date: nothing but the empty string
    for a date that is absent or empty, and for any other the ISO
    calendar date of the time value the Date constructor reads. *)
Lemma display_date_exact host x v :
  display_date host x = JS.Normal v ->
  exists s,
    v = VString s /\
    match x with
    | Some given =>
        if JS.truthy_string given then
          exists tv,
            new_Date host given = Some tv /\
            s = iso_calendar_date tv /\
            is_iso_calendar_date s = true
        else s = ""
    | None => s = ""
    end.
Proof.
  unfold display_date. destruct x as [given | ]; [ | intros [= <-]; now exists "" ].
  destruct (JS.truthy_string given); [ | intros [= <-]; now exists "" ].
  destruct (new_Date host given) as [tv | ] eqn:N; [ | discriminate ].
  pose proof (new_Date_clipped host given tv N) as C.
  cbn [toISOString]. destruct (toISOString_iso tv C) as (rest & ->).
  rewrite split_before
    by now apply iso_shape_no_time, iso_calendar_date_shape.
  intros [= <-]. exists (iso_calendar_date tv). split; [ reflexivity | ].
  exists tv. repeat split. now apply iso_calendar_date_shape.
Qed.

End IsoDates.

(** ** The representation of the fields *)




(** * Further properties *)

(** ** Assignments to an object *)

Lemma set_set_same o k v1 v2 : Obj.set (Obj.set o k v1) k v2 = Obj.set o k v2.
Proof.
  induction o as [ | [k' v'] o IH ]; simpl.
  - now rewrite String.eqb_refl.
  - destruct (String.eqb_spec k' k) as [E | N]; simpl.
    + subst k'. now rewrite String.eqb_refl.
    + apply String.eqb_neq in N. now rewrite N, IH.
Qed.

Lemma set_set_other o k1 v1 k2 v2 :
  k1 <> k2 -> In k1 (Obj.keys o) \/ In k2 (Obj.keys o) ->
  Obj.set (Obj.set o k1 v1) k2 v2 = Obj.set (Obj.set o k2 v2) k1 v1.
Proof.
  intros N. induction o as [ | [k v] o IH ]; simpl; intros H.
  - destruct H as [[] | []].
  - destruct (String.eqb_spec k k1) as [E1 | N1];
      destruct (String.eqb_spec k k2) as [E2 | N2]; simpl.
    + congruence.
    + subst k. apply String.eqb_neq in N. rewrite String.eqb_refl, N. reflexivity.
    + subst k. apply not_eq_sym, String.eqb_neq in N.
      rewrite String.eqb_refl, N. reflexivity.
    + pose proof N1 as F1. pose proof N2 as F2.
      apply String.eqb_neq in F1, F2. rewrite F1, F2. f_equal. apply IH.
      destruct H as [[H | H] | [H | H]]; try contradiction; [ now left | now right ].
Qed.

Lemma set_absent o k v :
  ~ In k (Obj.keys o) -> Obj.set o k v = (o ++ [(k, v)])%list.
Proof.
  induction o as [ | [k' v'] o IH ]; simpl; intros H; [ reflexivity | ].
  destruct (String.eqb_spec k' k) as [E | N]; [ elim H; now left | ].
  f_equal. apply IH. intros I. apply H. now right.
Qed.

Lemma payload_get_set_other o F v G :
  G <> F ->
  payload_get (build_formDataObj (Obj.set o F v)) G
  = payload_get (build_formDataObj o) G.
Proof.
  intros N. rewrite !build_formDataObj_map.
  induction o as [ | [k w] o IH ]; simpl.
  - apply not_eq_sym, String.eqb_neq in N. now rewrite N.
  - destruct (String.eqb_spec k F) as [E | NF]; simpl.
    + subst k. apply not_eq_sym, String.eqb_neq in N. now rewrite N.
    + now rewrite IH.
Qed.

Lemma payload_get_set_same o F v :
  payload_get (build_formDataObj (Obj.set o F v)) F = Some (string_coercion v).
Proof.
  rewrite build_formDataObj_map.
  induction o as [ | [k w] o IH ]; simpl.
  - now rewrite String.eqb_refl.
  - destruct (String.eqb_spec k F) as [E | NF]; simpl.
    + subst k. now rewrite String.eqb_refl.
    + apply String.eqb_neq in NF. now rewrite NF.
Qed.

Lemma output_handleSubmit_call st :
  output handleSubmit_call st
  = [PreventDefault; UpdateMaintenanceRecord (build_formDataObj (formData st))].
Proof. reflexivity. Qed.

(** ** Field edits, composed *)

(** X1.  Two edits of the same field in a row leave the state the second
    edit alone leaves: the last value wins. *)
Theorem handleChange_last_write_wins (st : State) (F V1 V2 : string) :
  exec (handleChange F V2) (exec (handleChange F V1) st)
  = exec (handleChange F V2) st.
Proof.
  unfold exec, handleChange, setFormData. simpl. now rewrite set_set_same.
Qed.

(** X2.  Edits of two different fields, at least one of them a field of
    the form state, give the same state in either order. *)
Theorem handleChange_commutes (st : State) (F V G W : string) :
  F <> G ->
  In F (Obj.keys (formData st)) \/ In G (Obj.keys (formData st)) ->
  exec (handleChange F V) (exec (handleChange G W) st)
  = exec (handleChange G W) (exec (handleChange F V) st).
Proof.
  intros N H. unfold exec, handleChange, setFormData. simpl.
  f_equal. apply set_set_other; [ congruence | tauto ].
Qed.

Lemma handleChange_commutes_witness :
  exec (handleChange "cost" "60") (exec (handleChange "notes" "paid") (fresh oil_change_form))
  = exec (handleChange "notes" "paid") (exec (handleChange "cost" "60") (fresh oil_change_form)).
Proof.
  apply handleChange_commutes; [ discriminate | left; simpl; tauto ].
Defined.

(** X3.  A change event whose name is no field of the form state and no
    array index adds the name as a new last field holding the string, and
    the payload of a submission then ends with an entry for it. *)
Theorem handleChange_unknown_name (st : State) (F V : string) :
  ~ In F (Obj.keys (formData st)) ->
  Obj.is_array_index F = false ->
  let st' := exec (handleChange F V) st in
  formData st' = (formData st ++ [(F, VString V)])%list /\
  build_formDataObj (formData st')
  = (build_formDataObj (formData st) ++ [(F, V)])%list.
Proof.
  intros H _ st'. subst st'. unfold exec, handleChange, setFormData. simpl.
  rewrite set_absent by exact H. split; [ reflexivity | ].
  now rewrite !build_formDataObj_map, map_app.
Qed.

Lemma handleChange_unknown_name_witness :
  build_formDataObj (formData (exec (handleChange "mileage" "42000") (fresh oil_change_form)))
  = (build_formDataObj oil_change_form ++ [("mileage", "42000")])%list.
Proof.
  refine (proj2 (handleChange_unknown_name (fresh oil_change_form)
                   "mileage" "42000" _ eq_refl)).
  simpl. intros H.
  repeat (destruct H as [H | H]; [ discriminate H | ]). exact H.
Defined.

(** X4.  A submission after an edit of field [F] to [V] sends [V] under
    [F] and, under every other name, what it would have sent without the
    edit. *)
Theorem edit_then_submit (st : State) (F V : string) :
  exists payload,
    output handleSubmit_call (exec (handleChange F V) st)
    = [PreventDefault; UpdateMaintenanceRecord payload] /\
    payload_get payload F = Some V /\
    (forall G, G <> F ->
       payload_get payload G = payload_get (build_formDataObj (formData st)) G).
Proof.
  eexists. split; [ apply output_handleSubmit_call | ].
  unfold exec, handleChange, setFormData. simpl. split.
  - apply payload_get_set_same.
  - intros G N. now apply payload_get_set_other.
Qed.

Lemma edit_then_submit_witness :
  exists payload,
    output handleSubmit_call (exec (handleChange "cost" "60") (fresh oil_change_form))
    = [PreventDefault; UpdateMaintenanceRecord payload] /\
    payload_get payload "cost" = Some "60" /\
    payload_get payload "notes" = Some "".
Proof.
  destruct (edit_then_submit (fresh oil_change_form) "cost" "60") as (p & O & S & R).
  exists p. split; [ exact O | ]. split; [ exact S | ].
  rewrite R; [ reflexivity | discriminate ].
Defined.

(** ** Runs of the mounted component *)

Lemma call_formData st : formData (exec handleSubmit_call st) = formData st.
Proof. reflexivity. Qed.

(** X5.  Through any run of events the form state is the initial one with
    the change events applied in order: clicks on submit and the outcomes
    of calls, whatever they are, leave it alone. *)
Theorem form_state_is_the_edits es : forall c c',
  dispatch_all c es = Some c' ->
  formData (state c') = apply_changes es (formData (state c)).
Proof.
  induction es as [ | e es IH ]; simpl; intros c c' D.
  - now injection D as <-.
  - destruct (dispatch c e) as [c1 | ] eqn:E; [ | discriminate ].
    rewrite (IH c1 c' D).
    destruct e as [ | name value | o ]; simpl in E.
    + destruct (submit_disabled (state c)); now injection E as <-.
    + now injection E as <-.
    + destruct (inFlight c) as [ | n ]; [ discriminate | ]. injection E as <-.
      unfold run. simpl. now rewrite resume_formData.
Qed.

Lemma form_state_is_the_edits_witness :
  exists c,
    dispatch_all (fresh_mount oil_change_form)
      [SubmitClick; Change "cost" "60"; Settle (failure (Some "Vehicle not found"));
       Change "notes" "paid"; SubmitClick] = Some c /\
    formData (state c)
    = Obj.set (Obj.set oil_change_form "cost" (VString "60")) "notes" (VString "paid").
Proof.
  eexists. split; [ reflexivity | ].
  exact (form_state_is_the_edits
           [SubmitClick; Change "cost" "60"; Settle (failure (Some "Vehicle not found"));
            Change "notes" "paid"; SubmitClick]
           (fresh_mount oil_change_form) _ eq_refl).
Defined.

Lemma input_name_not_id name : In name input_names -> name <> "id".
Proof.
  simpl. intros H E. subst name.
  repeat (destruct H as [H | H]; [ discriminate H | ]). exact H.
Qed.

Lemma identifier_kept es n : forall c c',
  dispatch_all c es = Some c' -> from_inputs es ->
  Obj.get (formData (state c)) "id" = VNumber n ->
  sends_identifier n (trace c) ->
  Obj.get (formData (state c')) "id" = VNumber n /\ sends_identifier n (trace c').
Proof.
  induction es as [ | e es IH ]; simpl; intros c c' D F G T.
  - injection D as <-. now split.
  - destruct (dispatch c e) as [c1 | ] eqn:E; [ | discriminate ].
    destruct e as [ | name value | o ]; simpl in E.
    + destruct (submit_disabled (state c)); injection E as <-;
        [ now apply (IH _ _ D F) | ].
      apply (IH _ _ D F); [ exact G | ].
      unfold run. simpl. intros p Hp. apply in_app_or in Hp as [Hp | Hp];
        [ now apply T | ].
      rewrite output_handleSubmit_call in Hp.
      destruct Hp as [Hp | [Hp | []]]; [ discriminate Hp | ]. injection Hp as <-.
      rewrite build_formDataObj_map.
      enough (K : forall o, Obj.get o "id" = VNumber n ->
                payload_get (map (fun kv => (fst kv, string_coercion (snd kv))) o) "id"
                = Some (JS.Number_toString n)) by now apply K.
      clear. induction o as [ | [k v] o IHo ]; simpl; [ discriminate | ].
      destruct (k =? "id")%string; [ now intros -> | exact IHo ].
    + injection E as <-. destruct F as [Fn F]. apply (IH _ _ D F).
      * unfold run, exec, handleChange, setFormData. simpl.
        rewrite get_set_other; [ exact G | ].
        apply not_eq_sym. now apply input_name_not_id.
      * unfold run. simpl. now rewrite app_nil_r.
    + destruct (inFlight c) as [ | k ]; [ discriminate | ]. injection E as <-.
      apply (IH _ _ D F).
      * unfold run. simpl. now rewrite resume_formData.
      * unfold run. simpl. intros p Hp. apply in_app_or in Hp as [Hp | Hp];
          [ now apply T | ].
        exfalso. destruct o as [result | ].
        -- unfold output, handleSubmit_resume in Hp.
           destruct (success result); simpl in Hp;
             repeat (destruct Hp as [Hp | Hp]; [ discriminate Hp | ]); exact Hp.
        -- simpl in Hp.
           repeat (destruct Hp as [Hp | Hp]; [ discriminate Hp | ]); exact Hp.
Qed.

Lemma initialFormData_id host r fd :
  initialFormData host r = JS.Normal fd -> Obj.get fd "id" = VNumber (id r).
Proof.
  unfold initialFormData.
  destruct (display_date host (date_performed r)); [ | discriminate ].
  destruct (display_date host (next_due_date r)); [ | discriminate ].
  now intros [= <-].
Qed.

(** X6.  However the user edits the form through its controls, the form
    state keeps the identifier of the record, and every call of the update
    action carries it under [id]. *)
Theorem every_call_names_the_record host r c0 es c :
  mount host r = JS.Normal c0 ->
  dispatch_all c0 es = Some c ->
  from_inputs es ->
  Obj.get (formData (state c)) "id" = VNumber (id r) /\
  (forall payload, In (UpdateMaintenanceRecord payload) (trace c) ->
     payload_get payload "id" = Some (JS.Number_toString (id r))).
Proof.
  unfold mount. destruct (initialFormData host r) as [fd | ] eqn:I; [ | discriminate ].
  intros [= <-] D F.
  apply (identifier_kept es (id r) _ _ D F).
  - simpl. eapply initialFormData_id, I.
  - intros p [].
Qed.

Lemma every_call_names_the_record_witness :
  exists c,
    dispatch_all (fresh_mount oil_change_form)
      [Change "vehicle_id" "4"; SubmitClick; Settle Rejected; SubmitClick] = Some c /\
    (forall payload, In (UpdateMaintenanceRecord payload) (trace c) ->
       payload_get payload "id" = Some "7").
Proof.
  eexists. split; [ reflexivity | ].
  refine (proj2 (every_call_names_the_record no_host_parse oil_change
                   (fresh_mount oil_change_form)
                   [Change "vehicle_id" "4"; SubmitClick; Settle Rejected; SubmitClick]
                   _ mount_oil_change eq_refl _)).
  simpl. tauto.
Defined.

Lemma or_string_default_truthy x d :
  JS.truthy_string d = true -> JS.truthy_string (JS.or_string x d) = true.
Proof.
  intros D. destruct x as [s | ]; simpl; [ | exact D ].
  destruct (JS.truthy_string s) eqn:T; [ exact T | exact D ].
Qed.

Lemma error_only_when_idle_step c e c' :
  error_only_when_idle (state c) -> dispatch c e = Some c' ->
  error_only_when_idle (state c').
Proof.
  intros J D. destruct e as [ | name value | o ]; simpl in D.
  - destruct (submit_disabled (state c)); injection D as <-; [ exact J | ].
    now left.
  - injection D as <-. exact J.
  - destruct (inFlight c) as [ | n ]; [ discriminate | ]. injection D as <-.
    destruct o as [result | ].
    + unfold run, exec, handleSubmit_resume. simpl.
      destruct (success result); simpl; [ exact J | ].
      right. split; [ reflexivity | ]. eexists. split; [ reflexivity | ].
      now apply or_string_default_truthy.
    + right. split; [ reflexivity | ]. eexists. split; reflexivity.
Qed.

Lemma error_only_when_idle_run es : forall c c',
  error_only_when_idle (state c) -> dispatch_all c es = Some c' ->
  error_only_when_idle (state c').
Proof.
  induction es as [ | e es IH ]; simpl; intros c c' J D.
  - now injection D as <-.
  - destruct (dispatch c e) as [c1 | ] eqn:E; [ | discriminate ].
    eapply IH; [ eapply error_only_when_idle_step; eassumption | exact D ].
Qed.

(** X7.  In every state the component reaches: no banner is shown while a
    call is outstanding; when a banner is shown its text is the recorded
    error, the component is not submitting and the button reads "Update
    Maintenance Record"; and a banner is missing only when no error is
    recorded (the recorded error is never the empty string). *)
Theorem banner_only_when_idle host r c0 es c :
  mount host r = JS.Normal c0 ->
  dispatch_all c0 es = Some c ->
  (inFlight c = 1%nat -> banner (state c) = None) /\
  (forall text, banner (state c) = Some text ->
     formError (state c) = Some text /\
     isSubmitting (state c) = false /\
     submit_label (state c) = "Update Maintenance Record") /\
  (banner (state c) = None <-> formError (state c) = None).
Proof.
  intros Hm D.
  destruct (one_in_flight_run es c0 c (mount_one_in_flight _ _ _ Hm) D) as [_ Hs].
  assert (J : error_only_when_idle (state c)).
  { apply (error_only_when_idle_run es c0 c); [ | exact D ].
    unfold mount in Hm. destruct (initialFormData host r); [ | discriminate ].
    injection Hm as <-. now left. }
  unfold banner, submit_label.
  destruct J as [-> | (I & e & -> & T)].
  - split; [ reflexivity | split; [ discriminate | split; reflexivity ] ].
  - rewrite T, I. split; [ | split; [ | split; discriminate ] ].
    + intros F. specialize (Hs F). congruence.
    + intros text [= <-]. repeat split.
Qed.

Lemma banner_only_when_idle_witness :
  exists c,
    dispatch_all (fresh_mount oil_change_form)
      [SubmitClick; Settle (failure None); SubmitClick] = Some c /\
    banner (state c) = None.
Proof.
  eexists. split; [ reflexivity | ].
  refine (proj1 (banner_only_when_idle no_host_parse oil_change
                   (fresh_mount oil_change_form)
                   [SubmitClick; Settle (failure None); SubmitClick] _
                   mount_oil_change eq_refl) _).
  reflexivity.
Defined.

Lemma pushes_app a b : pushes (a ++ b) = (pushes a ++ pushes b)%list.
Proof.
  induction a as [ | e a IH ]; simpl; [ reflexivity | ].
  destruct e; simpl; rewrite IH; reflexivity.
Qed.

Lemma refreshes_app a b : refreshes (a ++ b) = (refreshes a + refreshes b)%nat.
Proof.
  induction a as [ | e a IH ]; simpl; [ reflexivity | ].
  destruct e; simpl; rewrite IH; reflexivity.
Qed.

Lemma console_errors_app a b :
  console_errors (a ++ b) = (console_errors a + console_errors b)%nat.
Proof.
  induction a as [ | e a IH ]; simpl; [ reflexivity | ].
  destruct e; simpl; rewrite IH; reflexivity.
Qed.

Lemma effects_accounted es : forall c c',
  dispatch_all c es = Some c' ->
  pushes (trace c')
  = (pushes (trace c) ++ repeat "/dashboard/maintenance" (successes es))%list /\
  refreshes (trace c') = (refreshes (trace c) + successes es)%nat /\
  console_errors (trace c') = (console_errors (trace c) + rejections es)%nat.
Proof.
  induction es as [ | e es IH ]; simpl; intros c c' D.
  - injection D as <-. rewrite app_nil_r. repeat split; lia.
  - destruct (dispatch c e) as [c1 | ] eqn:E; [ | discriminate ].
    destruct (IH c1 c' D) as (P & R & C). rewrite P, R, C. clear P R C IH D.
    destruct e as [ | name value | o ]; simpl in E.
    + destruct (submit_disabled (state c)); injection E as <-;
        [ repeat split | ].
      unfold run. simpl.
      rewrite pushes_app, refreshes_app, console_errors_app. simpl.
      rewrite app_nil_r. repeat split; lia.
    + injection E as <-. unfold run. simpl. rewrite app_nil_r. repeat split.
    + destruct (inFlight c) as [ | n ]; [ discriminate | ]. injection E as <-.
      unfold run. simpl.
      rewrite pushes_app, refreshes_app, console_errors_app.
      destruct o as [result | ].
      * unfold output, handleSubmit_resume. destruct (success result); simpl.
        -- rewrite <- app_assoc. simpl. repeat split; lia.
        -- rewrite app_nil_r. repeat split; lia.
      * simpl. rewrite app_nil_r. repeat split; lia.
Qed.

Lemma stuck_never_settles es : forall c c',
  stuck_submitting c -> dispatch_all c es = Some c' -> successes es = 0%nat.
Proof.
  induction es as [ | e es IH ]; simpl; intros c c' St D; [ reflexivity | ].
  destruct (dispatch c e) as [c1 | ] eqn:E; [ | discriminate ].
  pose proof (stuck_submitting_step c e c1 St E) as St1.
  destruct e as [ | name value | o ]; try (eapply IH; eassumption).
  simpl in E. destruct St as [Z _]. rewrite Z in E. discriminate.
Qed.

Lemma at_most_one_success es : forall c c',
  one_in_flight c -> dispatch_all c es = Some c' -> (successes es <= 1)%nat.
Proof.
  induction es as [ | e es IH ]; simpl; intros c c' I D; [ lia | ].
  destruct (dispatch c e) as [c1 | ] eqn:E; [ | discriminate ].
  pose proof (one_in_flight_step c e c1 I E) as I1.
  destruct e as [ | name value | [result | ] ]; try (eapply IH; eassumption).
  destruct (success result) eqn:S; [ | eapply IH; eassumption ].
  enough (St : stuck_submitting c1)
    by (rewrite (stuck_never_settles es c1 c' St D); lia).
  simpl in E. destruct I as [Hle Hs].
  destruct (inFlight c) as [ | n ] eqn:F; [ discriminate | ].
  injection E as <-. assert (n = 0%nat) as -> by lia.
  split; [ reflexivity | ].
  unfold run, exec, handleSubmit_resume. rewrite S. simpl. now apply Hs.
Qed.

(** X8.  In every run the component navigates once per call that settles
    with a success, always to [/dashboard/maintenance], refreshes as
    often, writes one console diagnostic per call that throws, and at most
    one call ever settles with a success: it navigates at most once. *)
Theorem navigates_at_most_once host r c0 es c :
  mount host r = JS.Normal c0 ->
  dispatch_all c0 es = Some c ->
  pushes (trace c) = repeat "/dashboard/maintenance" (successes es) /\
  refreshes (trace c) = successes es /\
  console_errors (trace c) = rejections es /\
  (successes es <= 1)%nat.
Proof.
  intros Hm D.
  destruct (effects_accounted es c0 c D) as (P & R & C).
  pose proof (at_most_one_success es c0 c (mount_one_in_flight _ _ _ Hm) D) as S.
  unfold mount in Hm. destruct (initialFormData host r); [ | discriminate ].
  injection Hm as <-. simpl in P, R, C. now repeat split.
Qed.

Lemma navigates_at_most_once_witness :
  exists c,
    dispatch_all (fresh_mount oil_change_form)
      [SubmitClick; Settle Rejected; SubmitClick;
       Settle (Resolved {| success := true; message := None |}); SubmitClick] = Some c /\
    pushes (trace c) = ["/dashboard/maintenance"] /\
    console_errors (trace c) = 1%nat.
Proof.
  eexists. split; [ reflexivity | ].
  destruct (navigates_at_most_once no_host_parse oil_change
              (fresh_mount oil_change_form)
              [SubmitClick; Settle Rejected; SubmitClick;
               Settle (Resolved {| success := true; message := None |}); SubmitClick]
              _ mount_oil_change eq_refl) as (P & _ & C & _).
  split; [ exact P | exact C ].
Defined.

(** ** Dates, further *)

Section MoreDates.
Import Date.

Lemma same_day t1 t2 :
  Day t1 = Day t2 ->
  YearFromTime t1 = YearFromTime t2 /\
  MonthFromTime t1 = MonthFromTime t2 /\
  DateFromTime t1 = DateFromTime t2.
Proof.
  intros E.
  assert (Y : YearFromTime t1 = YearFromTime t2) by (unfold YearFromTime; now rewrite E).
  assert (W : DayWithinYear t1 = DayWithinYear t2)
    by (unfold DayWithinYear; now rewrite E, Y).
  assert (L : InLeapYear t1 = InLeapYear t2) by (unfold InLeapYear; now rewrite Y).
  assert (M : MonthFromTime t1 = MonthFromTime t2)
    by (unfold MonthFromTime; now rewrite W, L).
  repeat split; try assumption.
  unfold DateFromTime. now rewrite M, W, L.
Qed.

Lemma Day_MakeDate day time :
  0 <= time < msPerDay -> Day (MakeDate day time) = day.
Proof.
  intros H. unfold Day, MakeDate.
  symmetry. apply (Z.div_unique _ _ day time); [ left; exact H | ].
  unfold msPerDay. lia.
Qed.

Lemma calendar_roundtrip_time y m d time :
  1 <= m <= 12 -> 1 <= d <= days_in_month y m -> 0 <= time < msPerDay ->
  let t := MakeDate (MakeDay y (m - 1) d) time in
  YearFromTime t = y /\ MonthFromTime t = m - 1 /\ DateFromTime t = d.
Proof.
  intros Hm Hd Ht t.
  destruct (calendar_roundtrip y m d Hm Hd) as (Y & M & D).
  destruct (same_day t (MakeDate (MakeDay y (m - 1) d) 0)) as (Y' & M' & D').
  { unfold t. rewrite !Day_MakeDate; [ reflexivity | unfold msPerDay; lia | exact Ht ]. }
  now rewrite Y', M', D'.
Qed.

Lemma days_in_month_max y m : days_in_month y m <= 31.
Proof.
  unfold days_in_month.
  destruct m as [ | [ [ [ [ | | ] | [ | | ] | ] | [ [ | | ] | [ | | ] | ] | ]
                    | [ [ | | ] | [ [ | | ] | [ | | ] | ] | ] | ] | ];
    destruct (leap_year y); lia.
Qed.

Lemma days_before_month_range b m :
  1 <= m <= 12 -> 0 <= days_before_month b (m - 1) <= 335.
Proof.
  intros H. remember (m - 1) as mn eqn:Emn.
  assert (C : m = 1 \/ m = 2 \/ m = 3 \/ m = 4 \/ m = 5 \/ m = 6 \/ m = 7 \/ m = 8
              \/ m = 9 \/ m = 10 \/ m = 11 \/ m = 12) by lia.
  clear H.
  destruct b; decompose [or] C; subst m; vm_compute in Emn; subst mn;
    cbv [days_before_month]; lia.
Qed.

Lemma TimeClip_calendar y m d time :
  0 <= y <= 9999 -> 1 <= m <= 12 -> 1 <= d <= 31 -> 0 <= time < msPerDay ->
  TimeClip (MakeDate (MakeDay y (m - 1) d) time)
  = Some (MakeDate (MakeDay y (m - 1) d) time).
Proof.
  intros Y M D T. unfold TimeClip, MakeDate, MakeDay.
  rewrite (Z.div_small (m - 1) 12), (Z.mod_small (m - 1) 12) by lia.
  rewrite !Z.add_0_r.
  pose proof (DayFromYear_bounds y Y) as B.
  pose proof (days_before_month_range (leap_year y) m M) as B'.
  unfold msPerDay in *.
  destruct (Z.leb_spec (Z.abs
    ((DayFromYear y + days_before_month (leap_year y) (m - 1) + d - 1) * 86400000
     + time)) 8640000000000000); [ reflexivity | lia ].
Qed.

Lemma real_calendar_date_parts s :
  real_calendar_date s = true ->
  exists y m d,
    parse_date s = Some (y, m, d, EmptyString) /\
    s = four_digits y ++ "-" ++ two_digits m ++ "-" ++ two_digits d /\
    0 <= y <= 9999 /\ 1 <= m <= 12 /\ 1 <= d <= days_in_month y m.
Proof.
  unfold real_calendar_date. intros H. apply andb_true_iff in H as [Sh V].
  destruct (parse_date_only s Sh) as (y & m & d & P & E & Y).
  rewrite P in V. rewrite !andb_true_iff in V. destruct V as [[[M1 M2] D1] D2].
  apply Z.leb_le in M1, M2, D1, D2.
  exists y, m, d. repeat split; try lia; assumption.
Qed.

Lemma parse_date_append s rest y m d :
  is_YYYY_MM_DD s = true ->
  parse_date s = Some (y, m, d, EmptyString) ->
  parse_date (s ++ rest) = Some (y, m, d, rest).
Proof.
  do 10 (destruct s as [ | ? s ]; [ discriminate | ]).
  destruct s; [ | discriminate ]. intros _. cbn [String.append]. unfold parse_date.
  destruct ((a3 =? "-")%char && (a6 =? "-")%char); [ | discriminate ].
  destruct (num4 a a0 a1 a2) as [y' | ]; [ | discriminate ].
  destruct (num2 a4 a5) as [m' | ]; [ | discriminate ].
  destruct (num2 a7 a8) as [d' | ]; [ | discriminate ].
  intros E. now injection E as -> -> ->.
Qed.

Lemma num3_range a b c v : num3 a b c = Some v -> 0 <= v <= 999.
Proof.
  unfold num3. destruct (digit_val a) as [x | ] eqn:A; [ | discriminate ].
  destruct (num2 b c) as [w | ] eqn:B; [ | discriminate ].
  intros E. replace v with (100 * x + w) by congruence.
  apply digit_char_val in A as [_ RA]. apply two_digits_num2 in B as [_ RB]. lia.
Qed.

Lemma parse_utc_time_range rest h mi sec ms :
  parse_utc_time rest = Some (h, mi, sec, ms) ->
  rest <> EmptyString /\ 0 <= h /\ 0 <= mi /\ 0 <= sec /\ 0 <= ms <= 999.
Proof.
  unfold parse_utc_time.
  do 14 (destruct rest as [ | ? rest ]; [ discriminate | ]).
  destruct rest; [ | discriminate ].
  match goal with |- (if ?b then _ else _) = _ -> _ => destruct b; [ | discriminate ] end.
  destruct (num2 a0 a1) as [h' | ] eqn:H; [ | discriminate ].
  destruct (num2 a3 a4) as [m' | ] eqn:M; [ | discriminate ].
  destruct (num2 a6 a7) as [s' | ] eqn:S; [ | discriminate ].
  destruct (num3 a9 a10 a11) as [f' | ] eqn:F; [ | discriminate ].
  intros E.
  assert (h = h' /\ mi = m' /\ sec = s' /\ ms = f') as (-> & -> & -> & ->)
    by (repeat split; congruence).
  apply two_digits_num2 in H as [_ ?], M as [_ ?], S as [_ ?].
  apply num3_range in F. repeat split; try lia. discriminate.
Qed.

(** X9.  A date the record gives as a UTC timestamp
    [YYYY-MM-DDTHH:mm:ss.sssZ], with a calendar day and a time of day up to
    23:59:59.999, is displayed as its first ten characters, the day. *)
Theorem timestamp_displays_its_date host d rest h mi sec ms :
  real_calendar_date d = true ->
  parse_utc_time rest = Some (h, mi, sec, ms) ->
  h <= 23 -> mi <= 59 -> sec <= 59 ->
  display_date host (Some (d ++ rest)) = JS.Normal (VString d).
Proof.
  intros Hd Hp Hh Hmi Hsec.
  destruct (real_calendar_date_parts d Hd) as (y & m & dd & P & E & Y & M & D).
  destruct (parse_utc_time_range _ _ _ _ _ Hp) as (NE & H0 & M0 & S0 & F).
  assert (Sh : is_YYYY_MM_DD d = true)
    by (unfold real_calendar_date in Hd; now apply andb_true_iff in Hd as [? _]).
  pose proof (days_in_month_max y m) as D31.
  set (time := MakeTime h mi sec ms).
  assert (T : 0 <= time < msPerDay)
    by (unfold time, MakeTime, msPerDay, msPerHour, msPerMinute, msPerSecond; lia).
  assert (N : new_Date host (d ++ rest)
              = Some (MakeDate (MakeDay y (m - 1) dd) time)).
  { unfold new_Date, parse, iso_parse.
    rewrite (parse_date_append d rest y m dd Sh P).
    destruct rest as [ | c rest' ]; [ now elim NE | ].
    rewrite Hp.
    destruct (Z.ltb_spec 24 h); [ lia | ].
    destruct (Z.ltb_spec 59 mi); [ lia | ].
    destruct (Z.ltb_spec 59 sec); [ lia | ].
    destruct (Z.eqb_spec h 24); [ lia | ].
    cbn [orb]. unfold date_value.
    destruct (Z.ltb_spec m 1); [ lia | ].
    destruct (Z.ltb_spec 12 m); [ lia | ].
    destruct (Z.ltb_spec dd 1); [ lia | ].
    destruct (Z.ltb_spec 31 dd); [ lia | ].
    destruct (Z.ltb_spec (days_in_month y m) dd); [ lia | ].
    cbn [orb]. fold time.
    rewrite (TimeClip_calendar y m dd time) by lia.
    apply TimeClip_calendar; lia. }
  destruct (calendar_roundtrip_time y m dd time M D T) as (Ey & Em & Ed).
  assert (Tr : JS.truthy_string (d ++ rest) = true) by (rewrite E; reflexivity).
  rewrite (display_date_valid host _ _ Tr N) by (rewrite Ey; exact Y).
  unfold calendar_date. rewrite Ey, Em, Ed.
  replace (m - 1 + 1) with m by lia. now rewrite <- E.
Qed.

Lemma timestamp_displays_its_date_witness :
  display_date no_host_parse (Some "2024-02-29T23:59:59.999Z")
  = JS.Normal (VString "2024-02-29").
Proof.
  apply (timestamp_displays_its_date no_host_parse "2024-02-29" "T23:59:59.999Z"
           23 59 59 999); [ reflexivity | reflexivity | lia | lia | lia ].
Defined.

Lemma digit_val_char d : 0 <= d <= 9 -> digit_val (digit_char d) = Some d.
Proof.
  intros H.
  assert (C : d = 0 \/ d = 1 \/ d = 2 \/ d = 3 \/ d = 4 \/ d = 5 \/ d = 6 \/ d = 7
              \/ d = 8 \/ d = 9) by lia.
  decompose [or] C; subst d; reflexivity.
Qed.

Lemma num2_two_digits n :
  0 <= n <= 99 ->
  num2 (digit_char (n / 10)) (digit_char (n mod 10)) = Some n.
Proof.
  intros H. unfold num2.
  rewrite !digit_val_char by (Z.div_mod_to_equations; lia).
  f_equal. Z.div_mod_to_equations. lia.
Qed.

Lemma parse_date_digits y m d :
  0 <= y <= 9999 -> 0 <= m <= 99 -> 0 <= d <= 99 ->
  parse_date (four_digits y ++ "-" ++ two_digits m ++ "-" ++ two_digits d)
  = Some (y, m, d, EmptyString).
Proof.
  intros Y M D. unfold four_digits, two_digits. cbn [String.append].
  unfold parse_date. rewrite !Ascii.eqb_refl. cbn [andb].
  unfold num4.
  rewrite (num2_two_digits (y / 100)) by (Z.div_mod_to_equations; lia).
  rewrite (num2_two_digits (y mod 100)) by (Z.div_mod_to_equations; lia).
  rewrite (num2_two_digits m), (num2_two_digits d) by lia.
  repeat f_equal. Z.div_mod_to_equations. lia.
Qed.

Lemma DateFromTime_in_month t :
  DateFromTime t <= days_in_month (YearFromTime t) (MonthFromTime t + 1).
Proof.
  pose proof (DayWithinYear_range t) as R.
  unfold DateFromTime, MonthFromTime, InLeapYear, DaysInYear, days_in_month in *.
  destruct (leap_year (YearFromTime t));
    repeat match goal with
           | |- context [if ?a <? ?b then _ else _] => destruct (Z.ltb_spec a b)
           end;
    repeat match goal with
           | |- context [Z.add ?k 1] =>
               lazymatch k with
               | Z0 => change (Z.add k 1) with 1
               | Zpos _ => let v := eval vm_compute in (Z.add k 1) in
                           change (Z.add k 1) with v
               end
           end;
    cbv beta iota; lia.
Qed.

Lemma calendar_date_real tv :
  0 <= YearFromTime tv <= 9999 -> real_calendar_date (calendar_date tv) = true.
Proof.
  intros Y. unfold real_calendar_date.
  rewrite (calendar_date_shape tv Y). cbn [andb].
  pose proof (MonthFromTime_range tv) as M.
  pose proof (DateFromTime_range tv) as D.
  pose proof (DateFromTime_in_month tv) as DM.
  unfold calendar_date. rewrite parse_date_digits by lia.
  destruct (Z.leb_spec 1 (MonthFromTime tv + 1)); [ | lia ].
  destruct (Z.leb_spec (MonthFromTime tv + 1) 12); [ | lia ].
  destruct (Z.leb_spec 1 (DateFromTime tv)); [ | lia ].
  destruct (Z.leb_spec (DateFromTime tv)
              (days_in_month (YearFromTime tv) (MonthFromTime tv + 1))); [ | lia ].
  reflexivity.
Qed.

(** X10.  What the initialiser displays for a valid date, given back to it
    as the date of a record, is displayed unchanged. *)
Theorem display_is_idempotent host x :
  valid_date host x = true ->
  display_date host (Some (date_display host x))
  = JS.Normal (VString (date_display host x)).
Proof.
  unfold valid_date, date_display. destruct x as [s | ]; [ | reflexivity ].
  destruct (JS.truthy_string s); [ | reflexivity ].
  destruct (new_Date host s) as [tv | ]; [ | discriminate ].
  intros Y. apply andb_true_iff in Y as [Y0 Y1]. apply Z.leb_le in Y0, Y1.
  apply date_only_roundtrip, calendar_date_real. lia.
Qed.

Lemma display_is_idempotent_witness :
  display_date no_host_parse (Some "1999-12-31")
  = JS.Normal (VString "1999-12-31").
Proof.
  exact (display_is_idempotent no_host_parse (Some "1999-12-31T23:59:58.123Z") eq_refl).
Defined.

Lemma contains_append c a b :
  contains c (a ++ b) = contains c a || contains c b.
Proof.
  induction a as [ | x a IH ]; simpl; [ reflexivity | ].
  now rewrite IH, orb_assoc.
Qed.

Lemma contains_repeat_char c x n :
  (x =? c)%char = false -> contains c (JS.repeat_char x n) = false.
Proof. intros H. induction n as [ | n IH ]; simpl; [ reflexivity | now rewrite H ]. Qed.

Lemma string_of_uint_no_sep u :
  contains "T" (NilEmpty.string_of_uint u) = false.
Proof. induction u; simpl; auto. Qed.

Lemma padded_no_sep n k : contains "T" (ToZeroPaddedDecimalString n k) = false.
Proof.
  unfold ToZeroPaddedDecimalString, JS.decimal_of_N, NilZero.string_of_uint.
  rewrite contains_append, contains_repeat_char by reflexivity.
  destruct (N.to_uint (Z.to_N n)) eqn:E; try reflexivity;
    rewrite <- E at 1; cbn [orb]; rewrite E; apply string_of_uint_no_sep.
Qed.

Lemma not_digit_not_shape c r : is_digit c = false -> is_YYYY_MM_DD (String c r) = false.
Proof.
  intros H.
  do 9 (destruct r as [ | ? r ]; [ reflexivity | ]).
  destruct r; [ | reflexivity ].
  unfold is_YYYY_MM_DD. now rewrite H.
Qed.

(** X11.  A valid date of a year before 0000 or after 9999 is displayed
    with a sign and a year of six digits, which is not of the shape
    [YYYY-MM-DD]. *)
Theorem year_outside_four_digits host s tv :
  JS.truthy_string s = true ->
  new_Date host s = Some tv ->
  YearFromTime tv < 0 \/ 9999 < YearFromTime tv ->
  let text :=
    (if 0 <? YearFromTime tv then "+" else "-")
      ++ ToZeroPaddedDecimalString (Z.abs (YearFromTime tv)) 6
      ++ "-" ++ ToZeroPaddedDecimalString (MonthFromTime tv + 1) 2
      ++ "-" ++ ToZeroPaddedDecimalString (DateFromTime tv) 2 in
  display_date host (Some s) = JS.Normal (VString text) /\
  is_YYYY_MM_DD text = false.
Proof.
  intros T N Y text. split.
  - unfold display_date. rewrite T, N. cbn [toISOString].
    unfold toISOString_valid.
    assert (R : (0 <=? YearFromTime tv) && (YearFromTime tv <=? 9999) = false).
    { destruct (Z.leb_spec 0 (YearFromTime tv)), (Z.leb_spec (YearFromTime tv) 9999);
        try reflexivity; lia. }
    rewrite R.
    replace (((if 0 <? YearFromTime tv then "+" else "-")
               ++ ToZeroPaddedDecimalString (Z.abs (YearFromTime tv)) 6)
              ++ "-" ++ ToZeroPaddedDecimalString (MonthFromTime tv + 1) 2
              ++ "-" ++ ToZeroPaddedDecimalString (DateFromTime tv) 2
              ++ "T" ++ ToZeroPaddedDecimalString (HourFromTime tv) 2
              ++ ":" ++ ToZeroPaddedDecimalString (MinFromTime tv) 2
              ++ ":" ++ ToZeroPaddedDecimalString (SecFromTime tv) 2
              ++ "." ++ ToZeroPaddedDecimalString (msFromTime tv) 3 ++ "Z")
      with (text ++ String "T" (ToZeroPaddedDecimalString (HourFromTime tv) 2
              ++ ":" ++ ToZeroPaddedDecimalString (MinFromTime tv) 2
              ++ ":" ++ ToZeroPaddedDecimalString (SecFromTime tv) 2
              ++ "." ++ ToZeroPaddedDecimalString (msFromTime tv) 3 ++ "Z"))
      by (unfold text; now rewrite !append_assoc).
    rewrite split_before; [ reflexivity | ].
    unfold text. rewrite !contains_append, !padded_no_sep.
    now destruct (0 <? YearFromTime tv).
  - unfold text. destruct (0 <? YearFromTime tv); now apply not_digit_not_shape.
Qed.

Lemma year_outside_four_digits_witness :
  display_date (fun _ => Some 253402300800000) (Some "+010000-01-01")
  = JS.Normal (VString "+010000-01-01").
Proof.
  refine (proj1 (year_outside_four_digits (fun _ => Some 253402300800000)
                   "+010000-01-01" 253402300800000 eq_refl eq_refl _)).
  right. vm_compute. reflexivity.
Defined.

(** X12.  The first piece of [s.split(sep)] is the part of [s] before
    its first [sep]: it holds no [sep], and [s] is that piece alone or the
    piece, a [sep], and the string the other pieces are split from. *)
Theorem split_first_is_prefix sep s :
  exists h t,
    Str.split sep s = h :: t /\
    contains sep h = false /\
    (t = [] /\ s = h \/
     exists rest, s = h ++ String sep rest /\ t = Str.split sep rest).
Proof.
  induction s as [ | c s (h & t & E & C & R) ].
  - exists EmptyString, []. repeat split. now left.
  - simpl. destruct (c =? sep)%char eqn:Q.
    + apply Ascii.eqb_eq in Q. subst c.
      exists EmptyString, (Str.split sep s). repeat split.
      right. now exists s.
    + rewrite E. exists (String c h), t. split; [ reflexivity | ].
      split; [ simpl; now rewrite Q | ].
      destruct R as [[-> ->] | (rest & -> & ->)]; [ now left | ].
      right. now exists rest.
Qed.

End MoreDates.

(** ** A submission without edits *)

(** X13.  Submitting the form as it was mounted sends the record back:
    identifier and vehicle reference printed as Numbers, the text fields
    (empty where the record has none), the cost printed or "0", a
    non-empty status, and a date given as the [YYYY-MM-DD] of a calendar
    day as it was given (an absent date performed as the empty string). *)
Theorem untouched_submit_returns_the_record host r c0 :
  mount host r = JS.Normal c0 ->
  exists payload,
    output handleSubmit_call (state c0)
    = [PreventDefault; UpdateMaintenanceRecord payload] /\
    payload_get payload "id" = Some (JS.Number_toString (id r)) /\
    payload_get payload "vehicle_id" = Some (JS.Number_toString (vehicle_id r)) /\
    payload_get payload "service_type" = Some (default "" (service_type r)) /\
    payload_get payload "description" = Some (default "" (description r)) /\
    payload_get payload "service_provider" = Some (default "" (service_provider r)) /\
    payload_get payload "notes" = Some (default "" (notes r)) /\
    payload_get payload "cost"
    = Some (match cost r with
            | Some n => JS.Number_toString n
            | None => "0"
            end) /\
    (forall s, status r = Some s -> s <> "" -> payload_get payload "status" = Some s) /\
    (forall s, real_calendar_date s = true ->
       (date_performed r = Some s -> payload_get payload "date_performed" = Some s) /\
       (next_due_date r = Some s -> payload_get payload "next_due_date" = Some s)) /\
    (date_performed r = None -> payload_get payload "date_performed" = Some "").
Proof.
  unfold mount, initialFormData.
  destruct (display_date host (date_performed r)) as [p | ] eqn:P; [ | discriminate ].
  destruct (display_date host (next_due_date r)) as [d | ] eqn:D; [ | discriminate ].
  intros [= <-]. eexists. split; [ reflexivity | ].
  rewrite build_formDataObj_map. cbn [state formData map fst snd payload_get String.eqb
    Ascii.eqb Bool.eqb string_coercion].
  rewrite cost_display, !text_display.
  do 7 (split; [ reflexivity | ]). split; [ | split ].
  - intros s -> N. destruct s; [ now elim N | reflexivity ].
  - intros s R. split; intros E.
    + rewrite E, (date_only_roundtrip host s R) in P. now injection P as <-.
    + rewrite E, (date_only_roundtrip host s R) in D. now injection D as <-.
  - intros E. rewrite E in P. now injection P as <-.
Qed.

Lemma untouched_submit_returns_the_record_witness :
  exists payload,
    output handleSubmit_call (fresh oil_change_form)
    = [PreventDefault; UpdateMaintenanceRecord payload] /\
    payload_get payload "next_due_date" = Some "2024-05-01" /\
    payload_get payload "cost" = Some "45.5".
Proof.
  destruct (untouched_submit_returns_the_record no_host_parse oil_change
              (fresh_mount oil_change_form) mount_oil_change)
    as (p & O & _ & _ & _ & _ & _ & _ & C & _ & Dt & _).
  exists p. split; [ exact O | ]. split; [ | exact C ].
  apply (Dt "2024-05-01"); reflexivity.
Defined.

(** ** Every payload, and the render that fails *)

Lemma resume_makes_no_call o st p :
  ~ In (UpdateMaintenanceRecord p) (output (handleSubmit_resume o) st).
Proof.
  intros Hp. destruct o as [result | ].
  - unfold output, handleSubmit_resume in Hp.
    destruct (success result); simpl in Hp;
      repeat (destruct Hp as [Hp | Hp]; [ discriminate Hp | ]); exact Hp.
  - simpl in Hp.
    repeat (destruct Hp as [Hp | Hp]; [ discriminate Hp | ]); exact Hp.
Qed.

Lemma form_keys_sent es : forall c c',
  dispatch_all c es = Some c' -> from_inputs es ->
  Obj.keys (formData (state c)) = form_keys ->
  sends_form_keys (trace c) ->
  sends_form_keys (trace c').
Proof.
  induction es as [ | e es IH ]; simpl; intros c c' D F K T.
  - now injection D as <-.
  - destruct (dispatch c e) as [c1 | ] eqn:E; [ | discriminate ].
    assert (K1 : Obj.keys (formData (state c1)) = form_keys).
    { apply (form_keys_run [e] c c1); [ simpl; now rewrite E | | exact K ].
      destruct e; simpl in *; tauto. }
    assert (F' : from_inputs es) by (destruct e; simpl in F; tauto).
    apply (IH c1 c' D F' K1). clear IH D F' K1.
    destruct e as [ | name value | o ]; simpl in E.
    + destruct (submit_disabled (state c)); injection E as <-; [ exact T | ].
      unfold run. simpl. intros p Hp. apply in_app_or in Hp as [Hp | Hp];
        [ now apply T | ].
      rewrite output_handleSubmit_call in Hp.
      destruct Hp as [Hp | [Hp | []]]; [ discriminate Hp | ]. injection Hp as <-.
      rewrite build_formDataObj_map, map_map. exact K.
    + injection E as <-. unfold run. simpl. now rewrite app_nil_r.
    + destruct (inFlight c) as [ | k ]; [ discriminate | ]. injection E as <-.
      unfold run. simpl. intros p Hp. apply in_app_or in Hp as [Hp | Hp];
        [ now apply T | ].
      now apply resume_makes_no_call in Hp.
Qed.

(** X14.  However the user edits the form through its controls, every
    call of the update action has exactly the ten keys [id], [vehicle_id],
    [service_type], [description], [date_performed], [next_due_date],
    [cost], [status], [service_provider], [notes], in this order. *)
Theorem every_call_has_the_ten_keys host r c0 es c :
  mount host r = JS.Normal c0 ->
  dispatch_all c0 es = Some c ->
  from_inputs es ->
  forall payload, In (UpdateMaintenanceRecord payload) (trace c) ->
    map fst payload = form_keys.
Proof.
  unfold mount. destruct (initialFormData host r) as [fd | ] eqn:I; [ | discriminate ].
  intros [= <-] D F.
  apply (form_keys_sent es _ _ D F).
  - simpl. eapply initialFormData_keys, I.
  - intros p [].
Qed.

Lemma every_call_has_the_ten_keys_witness :
  exists c,
    dispatch_all (fresh_mount oil_change_form)
      [Change "status" "overdue"; SubmitClick; Settle (failure None);
       Change "notes" "late"; SubmitClick] = Some c /\
    (forall payload, In (UpdateMaintenanceRecord payload) (trace c) ->
       map fst payload = form_keys).
Proof.
  eexists. split; [ reflexivity | ].
  refine (every_call_has_the_ten_keys no_host_parse oil_change
            (fresh_mount oil_change_form)
            [Change "status" "overdue"; SubmitClick; Settle (failure None);
             Change "notes" "late"; SubmitClick]
            _ mount_oil_change eq_refl _).
  simpl. tauto.
Defined.

Lemma display_date_cases host x :
  if date_throws host x
  then display_date host x = JS.Throw (JS.RangeError "Invalid time value")
  else exists v, display_date host x = JS.Normal v.
Proof.
  unfold date_throws, display_date. destruct x as [s | ]; [ | now eexists ].
  destruct (JS.truthy_string s); [ | now eexists ].
  destruct (Date.new_Date host s); simpl; [ now eexists | reflexivity ].
Qed.

(** X15.  The first render throws exactly when a date of the record is
    present and read as an invalid date; the exception is the RangeError
    "Invalid time value" of [toISOString].  Otherwise the render gives a
    form state with the ten fields. *)
Theorem render_throws_for_invalid_dates host (r : MaintenanceRecord) :
  if date_throws host (date_performed r) || date_throws host (next_due_date r)
  then initialFormData host r = JS.Throw (JS.RangeError "Invalid time value")
  else exists fd, initialFormData host r = JS.Normal fd /\ Obj.keys fd = form_keys.
Proof.
  pose proof (display_date_cases host (date_performed r)) as P.
  pose proof (display_date_cases host (next_due_date r)) as D.
  unfold initialFormData.
  destruct (date_throws host (date_performed r)); simpl.
  - now rewrite P.
  - destruct P as [p ->].
    destruct (date_throws host (next_due_date r)).
    + now rewrite D.
    + destruct D as [d ->]. eexists. split; reflexivity.
Qed.
